(** * remisb/restaurant: a shallow embedding of the request-handling core

    The Go packages of the service are embedded as Rocq modules of the same
    names.  Go's [error] interface is [option err] ([None] is [nil]); code
    that threads the database, the logger, the tracer, the clock and the
    response writer is written in a small state monad [M] over [World],
    whose outcomes are a normal return or a run-time fault (a Go panic). *)

From Stdlib Require Import String Ascii List ZArith Bool Lia Permutation.
Import ListNotations.
Local Open Scope string_scope.
Local Open Scope list_scope.
Local Open Scope Z_scope.
Set Warnings "-register-all".

(** ** Data model *)

(** Modelled from the spec: auth.Claims, declared in package auth, which
    has no file among the sources.  The subject, the role names and the
    standard temporal fields, as Unix seconds. *)
Record Claims : Type := mkClaims {
  Subject   : string;
  Roles     : list string;
  IssuedAt  : Z;
  ExpiresAt : Z;
  NotBefore : Z
}.

(** web.Values: the per-request state behind the pointer stored in a
    request context, with the fields the Logger middleware and the tests
    read. *)
Record Values : Type := mkValues {
  TraceID    : string;
  Now        : Z;
  StatusCode : Z
}.

(** Rows and request documents of package restaurant, with the fields its
    functions, the handlers and the tests read and write. *)
Record Restaurant : Type := mkRestaurant {
  r_ID          : string;
  r_Name        : string;
  r_Address     : string;
  r_OwnerUserID : string;
  r_DateCreated : Z;
  r_DateUpdated : Z
}.

Record NewRestaurant : Type := mkNewRestaurant {
  nr_Name    : string;
  nr_Address : string
}.

Record UpdateRestaurant : Type := mkUpdateRestaurant {
  up_Name    : option string;
  up_Address : option string
}.

Record Menu : Type := mkMenu {
  m_ID           : string;
  m_RestaurantID : string;
  m_Date         : Z;
  m_Menu         : string;
  m_Votes        : Z
}.

Record NewMenu : Type := mkNewMenu {
  nm_RestaurantID : string;
  nm_Date         : Z;
  nm_Menu         : string
}.

Record UpdateMenu : Type := mkUpdateMenu {
  um_ID   : string;
  um_Menu : string;
  um_Date : Z
}.

(** web.FieldError and web.ErrorResponse, as the tests build them. *)
Record FieldError : Type := mkFieldError {
  fe_Field : string;
  fe_Error : string
}.

Record ErrorResponse : Type := mkErrorResponse {
  er_Error  : string;
  er_Fields : list FieldError
}.

(** os.Signal values that reach the shutdown channel. *)
Inductive Signal : Type :=
| SIGINT
| SIGTERM
| SIGSTOP
| SIGOTHER (n : nat).

(** Arguments handed to the fmt verbs of [Printf], [Wrapf] and friends. *)
Inductive fmtarg : Type :=
| FStr (s : string)
| FInt (z : Z)
| FDuration (d : Z)
| FSignal (s : Signal)
| FNewRestaurant (nr : NewRestaurant)
| FUpdateRestaurant (up : UpdateRestaurant)
| FNewMenu (nm : NewMenu)
| FUpdateMenu (um : UpdateMenu).

(** Go error values.  The sentinels of package restaurant and of
    database/sql are compared by identity in the source, so each one is a
    constructor of its own. *)
Inductive err : Type :=
| ErrNotFound
| ErrInvalidID
| ErrForbidden
| ErrNoRows
| ErrNew (msg : string)
| ErrWrap (cause : err) (format : string) (args : list fmtarg)
| ErrWeb (cause : option err) (status : Z) (fields : list FieldError)
| ErrShutdown (msg : string).

Definition error : Type := option err.

(** errors.Wrap and errors.Wrapf return nil for a nil error. *)
Definition Wrapf (e : error) (format : string) (args : list fmtarg) : error :=
  match e with
  | None => None
  | Some c => Some (ErrWrap c format args)
  end.

Definition Wrap (e : error) (msg : string) : error := Wrapf e msg [].

(** errors.Cause: strip the wrapping layers. *)
Fixpoint Cause (e : err) : err :=
  match e with
  | ErrWrap c _ _ => Cause c
  | _ => e
  end.

Definition StatusOK : Z := 200.
Definition StatusCreated : Z := 201.
Definition StatusNoContent : Z := 204.
Definition StatusBadRequest : Z := 400.
Definition StatusUnauthorized : Z := 401.
Definition StatusForbidden : Z := 403.
Definition StatusNotFound : Z := 404.
Definition StatusInternalServerError : Z := 500.

Definition RoleAdmin : string := "ADMIN".

(** ** The database behind *sqlx.DB *)

Inductive stmt : Type :=
| qSelectRestaurants
| qInsertRestaurant (r : Restaurant)
| qSelectRestaurant (id : string)
| qUpdateRestaurant (id name address : string) (updated : Z)
| qDeleteRestaurant (id : string)
| qInsertMenu (m : Menu)
| qSelectMenu (id : string)
| qUpdateMenu (id menu : string) (date : Z).

(** The tables, the statements sent so far, and the driver failures still to
    come: every statement consumes the head of [db_faults], and fails with
    it, untouched tables, when it is [Some e]. *)
Record DB : Type := mkDB {
  db_restaurant : list Restaurant;
  db_menu       : list Menu;
  db_journal    : list stmt;
  db_faults     : list error
}.

Definition is_write (q : stmt) : bool :=
  match q with
  | qInsertRestaurant _ | qUpdateRestaurant _ _ _ _ | qDeleteRestaurant _
  | qInsertMenu _ | qUpdateMenu _ _ _ => true
  | _ => false
  end.

Definition writes (db : DB) : list stmt := filter is_write (db_journal db).

Definition send (q : stmt) (db : DB) : error * DB :=
  let db' := mkDB (db_restaurant db) (db_menu db)
                  (db_journal db ++ [q]) (tl (db_faults db)) in
  (match db_faults db with e :: _ => e | [] => None end, db').

Definition set_restaurant (name address : string) (updated : Z) (r : Restaurant)
  : Restaurant :=
  mkRestaurant (r_ID r) name address (r_OwnerUserID r) (r_DateCreated r) updated.

Definition set_menu (menu : string) (date : Z) (m : Menu) : Menu :=
  mkMenu (m_ID m) (m_RestaurantID m) date menu (m_Votes m).

(** What a statement that the driver accepted does to the tables. *)
Definition apply_stmt (q : stmt) (db : DB) : DB :=
  match q with
  | qInsertRestaurant r =>
      mkDB (db_restaurant db ++ [r]) (db_menu db) (db_journal db) (db_faults db)
  | qUpdateRestaurant id name address updated =>
      mkDB (map (fun r => if String.eqb (r_ID r) id
                          then set_restaurant name address updated r else r)
                (db_restaurant db))
           (db_menu db) (db_journal db) (db_faults db)
  | qDeleteRestaurant id =>
      mkDB (filter (fun r => negb (String.eqb (r_ID r) id)) (db_restaurant db))
           (db_menu db) (db_journal db) (db_faults db)
  | qInsertMenu m =>
      mkDB (db_restaurant db) (db_menu db ++ [m]) (db_journal db) (db_faults db)
  | qUpdateMenu id menu date =>
      mkDB (db_restaurant db)
           (map (fun m => if String.eqb (m_ID m) id then set_menu menu date m else m)
                (db_menu db))
           (db_journal db) (db_faults db)
  | _ => db
  end.

(** db.ExecContext *)
Definition db_Exec (q : stmt) (db : DB) : error * DB :=
  match send q db with
  | (Some e, db') => (Some e, db')
  | (None, db') => (None, apply_stmt q db')
  end.

(** db.GetContext on one restaurant: the first matching row, or
    sql.ErrNoRows. *)
Definition db_GetRestaurant (id : string) (db : DB) : (err + Restaurant) * DB :=
  match send (qSelectRestaurant id) db with
  | (Some e, db') => (inl e, db')
  | (None, db') =>
      match find (fun r => String.eqb (r_ID r) id) (db_restaurant db') with
      | Some r => (inr r, db')
      | None => (inl ErrNoRows, db')
      end
  end.

Definition db_GetMenu (id : string) (db : DB) : (err + Menu) * DB :=
  match send (qSelectMenu id) db with
  | (Some e, db') => (inl e, db')
  | (None, db') =>
      match find (fun m => String.eqb (m_ID m) id) (db_menu db') with
      | Some m => (inr m, db')
      | None => (inl ErrNoRows, db')
      end
  end.

(** db.SelectContext on all restaurants. *)
Definition db_SelectRestaurants (db : DB) : (err + list Restaurant) * DB :=
  match send qSelectRestaurants db with
  | (Some e, db') => (inl e, db')
  | (None, db') => (inr (db_restaurant db'), db')
  end.

(** ** The world a request runs in *)

Inductive logarg : Type :=
| LA (a : fmtarg)
| LErr (e : err).

(** A line written through *log.Logger: the format and its arguments. *)
Inductive LogEntry : Type :=
| Printf (format : string) (args : list logarg)
| Println (args : list logarg).

Inductive SpanEvent : Type :=
| SpanStart (name : string)
| SpanEnd (name : string).

(** http.ResponseWriter: the status of the first WriteHeader, the bytes
    written, and the Content-Type header. *)
Record ResponseWriter : Type := mkResponseWriter {
  rw_status      : option Z;
  rw_body        : string;
  rw_contentType : option string
}.

Definition rw_empty : ResponseWriter := mkResponseWriter None "" None.

Record Metrics : Type := mkMetrics {
  mt_requests : Z;
  mt_errors   : Z
}.

Record World : Type := mkWorld {
  w_db       : DB;
  w_heap     : list Values;      (* the cells *web.Values point to *)
  w_log      : list LogEntry;
  w_spans    : list SpanEvent;
  w_clock    : Z;                (* time.Now *)
  w_random   : nat -> string;    (* what the n-th uuid.New() returns *)
  w_drawn    : nat;
  w_metrics  : Metrics;
  w_shutdown : list Signal;      (* the shutdown channel *)
  w_resp     : ResponseWriter
}.

Definition with_db (f : DB -> DB) (w : World) : World :=
  mkWorld (f (w_db w)) (w_heap w) (w_log w) (w_spans w) (w_clock w)
          (w_random w) (w_drawn w) (w_metrics w) (w_shutdown w) (w_resp w).

Definition with_heap (f : list Values -> list Values) (w : World) : World :=
  mkWorld (w_db w) (f (w_heap w)) (w_log w) (w_spans w) (w_clock w)
          (w_random w) (w_drawn w) (w_metrics w) (w_shutdown w) (w_resp w).

Definition with_log (f : list LogEntry -> list LogEntry) (w : World) : World :=
  mkWorld (w_db w) (w_heap w) (f (w_log w)) (w_spans w) (w_clock w)
          (w_random w) (w_drawn w) (w_metrics w) (w_shutdown w) (w_resp w).

Definition with_spans (f : list SpanEvent -> list SpanEvent) (w : World) : World :=
  mkWorld (w_db w) (w_heap w) (w_log w) (f (w_spans w)) (w_clock w)
          (w_random w) (w_drawn w) (w_metrics w) (w_shutdown w) (w_resp w).

Definition with_drawn (f : nat -> nat) (w : World) : World :=
  mkWorld (w_db w) (w_heap w) (w_log w) (w_spans w) (w_clock w)
          (w_random w) (f (w_drawn w)) (w_metrics w) (w_shutdown w) (w_resp w).

Definition with_metrics (f : Metrics -> Metrics) (w : World) : World :=
  mkWorld (w_db w) (w_heap w) (w_log w) (w_spans w) (w_clock w)
          (w_random w) (w_drawn w) (f (w_metrics w)) (w_shutdown w) (w_resp w).

Definition with_shutdown (f : list Signal -> list Signal) (w : World) : World :=
  mkWorld (w_db w) (w_heap w) (w_log w) (w_spans w) (w_clock w)
          (w_random w) (w_drawn w) (w_metrics w) (f (w_shutdown w)) (w_resp w).

Definition with_resp (f : ResponseWriter -> ResponseWriter) (w : World) : World :=
  mkWorld (w_db w) (w_heap w) (w_log w) (w_spans w) (w_clock w)
          (w_random w) (w_drawn w) (w_metrics w) (w_shutdown w) (f (w_resp w)).

(** ** The monad of effectful Go code *)

Inductive outcome (A : Type) : Type :=
| Ret (a : A)
| Fault (reason : string).
Arguments Ret {A} a.
Arguments Fault {A} reason.

Definition M (A : Type) : Type := World -> outcome A * World.

Definition ret {A} (a : A) : M A := fun w => (Ret a, w).

Definition bind {A B} (m : M A) (k : A -> M B) : M B :=
  fun w => match m w with
           | (Ret a, w') => k a w'
           | (Fault r, w') => (Fault r, w')
           end.

Notation "x <- m ;; k" := (bind m (fun x => k))
  (at level 61, m at next level, right associativity).
Notation "m ;;; k" := (bind m (fun _ => k))
  (at level 61, right associativity).

(** A deferred call runs when the function leaves, by return or by panic. *)
Definition defer {A} (d : World -> World) (m : M A) : M A :=
  fun w => let (o, w') := m w in (o, d w').

Definition modify (f : World -> World) : M unit := fun w => (Ret tt, f w).

Definition lift_db {A} (f : DB -> A * DB) : M A :=
  fun w => let (a, db') := f (w_db w) in (Ret a, with_db (fun _ => db') w).

Definition log_Printf (format : string) (args : list logarg) : M unit :=
  modify (with_log (fun l => l ++ [Printf format args])).

Definition log_Println (args : list logarg) : M unit :=
  modify (with_log (fun l => l ++ [Println args])).

Definition time_Now : M Z := fun w => (Ret (w_clock w), w).

(** uuid.New().String() *)
Definition uuid_New : M string :=
  fun w => (Ret (w_random w (w_drawn w)), with_drawn S w).

(** ** context.Context *)

(** The request context: the pointer stored under web.KeyValues, the Claims
    stored under auth.Key, and the spans opened so far. *)
Record Ctx : Type := mkCtx {
  ctx_values : option nat;
  ctx_claims : option Claims;
  ctx_spans  : list string
}.

Definition ctx_Background : Ctx := mkCtx None None [].

Definition ctx_WithClaims (c : Claims) (ctx : Ctx) : Ctx :=
  mkCtx (ctx_values ctx) (Some c) (ctx_spans ctx).

Definition ctx_WithValues (p : nat) (ctx : Ctx) : Ctx :=
  mkCtx (Some p) (ctx_claims ctx) (ctx_spans ctx).

(** trace.StartSpan followed by [defer span.End()]. *)
Definition with_span {A} (ctx : Ctx) (name : string) (body : Ctx -> M A) : M A :=
  fun w =>
    defer (with_spans (fun l => l ++ [SpanEnd name]))
          (body (mkCtx (ctx_values ctx) (ctx_claims ctx) (name :: ctx_spans ctx)))
          (with_spans (fun l => l ++ [SpanStart name]) w).

Definition zero_Values : Values := mkValues "" 0 0.

(** Reading and writing through a *web.Values pointer. *)
Definition load (p : nat) : M Values :=
  fun w => (Ret (nth p (w_heap w) zero_Values), w).

Fixpoint set_nth {A} (n : nat) (x : A) (l : list A) : list A :=
  match n, l with
  | O, _ :: t => x :: t
  | S k, h :: t => h :: set_nth k x t
  | _, [] => []
  end.

Definition store (p : nat) (v : Values) : M unit :=
  modify (with_heap (set_nth p v)).

Definition alloc (v : Values) : M nat :=
  fun w => (Ret (length (w_heap w)), with_heap (fun h => h ++ [v]) w).

(** ** Libraries outside the repository *)

(** What web.Respond is given to marshal. *)
Inductive payload : Type :=
| PNil
| PErrorResponse (er : ErrorResponse)
| PRestaurant (r : Restaurant)
| PRestaurants (l : list Restaurant)
| PMenu (m : Menu)
| POther (text : string).

(** A decoded JSON document. *)
Inductive JSON : Type :=
| JNull
| JBool (b : bool)
| JNum (z : Z)
| JStr (s : string)
| JArr (l : list JSON)
| JObj (members : list (string * JSON)).

(** The functions of google/uuid, fmt and encoding/json that the service
    calls: they are parameters of the development. *)
Class Libs : Type := {
  (* uuid.Parse(s) returns no error *)
  uuid_Parse : string -> bool;
  (* fmt.Sprintf *)
  Sprintf : string -> list fmtarg -> string;
  (* json.Marshal on the rows of package restaurant *)
  json_Marshal : payload -> string;
  (* json decoding into the request documents of package restaurant, whose
     struct tags are declared in a file that is not among the sources *)
  json_UpdateRestaurant : JSON -> option UpdateRestaurant;
  json_NewMenu : JSON -> option NewMenu;
  (* the validator on the decoded documents *)
  validate_UpdateRestaurant : UpdateRestaurant -> list FieldError;
  validate_NewMenu : NewMenu -> list FieldError
}.

(** ** package auth *)

Module auth.

(** Modelled from the spec: package auth (the Authenticator, token issuance
    and verification, Claims.HasRole) has no file among the sources.  Keys
    and signatures are symbolic: a signature records the private key that
    made it and the header and claims it covers; the compact text of a token
    is represented by its parse, and [Garbage] stands for every text that
    has no parse. *)
Inductive PrivateKey : Type := Priv (n : nat).
Inductive PublicKey : Type := Pub (n : nat).

Definition Public (k : PrivateKey) : PublicKey :=
  match k with Priv n => Pub n end.

Record Header : Type := mkHeader {
  alg : string;
  kid : string
}.

Inductive Signature : Type :=
| Signed (by_key : nat) (h : Header) (c : Claims).

Inductive Token : Type :=
| Compact (h : Header) (c : Claims) (s : Signature)
| Garbage (text : string).

Definition header_eqb (a b : Header) : bool :=
  String.eqb (alg a) (alg b) && String.eqb (kid a) (kid b).

Definition claims_eqb (a b : Claims) : bool :=
  String.eqb (Subject a) (Subject b)
  && (if list_eq_dec string_dec (Roles a) (Roles b) then true else false)
  && Z.eqb (IssuedAt a) (IssuedAt b)
  && Z.eqb (ExpiresAt a) (ExpiresAt b)
  && Z.eqb (NotBefore a) (NotBefore b).

Definition sign (k : PrivateKey) (h : Header) (c : Claims) : Signature :=
  match k with Priv n => Signed n h c end.

Definition check (p : PublicKey) (h : Header) (c : Claims) (s : Signature) : bool :=
  match p, s with
  | Pub n, Signed m h' c' => Nat.eqb n m && header_eqb h h' && claims_eqb c c'
  end.

Record Authenticator : Type := mkAuthenticator {
  privateKey       : PrivateKey;
  keyID            : string;
  algorithm        : string;
  pubKeyLookupFunc : string -> option PublicKey
}.

(** auth.NewSimpleKeyLookupFunc *)
Definition NewSimpleKeyLookupFunc (activeKID : string) (publicKey : PublicKey)
  : string -> option PublicKey :=
  fun k => if String.eqb k activeKID then Some publicKey else None.

(** Modelled from the spec: Claims.HasRole, whether the role is present in
    the role set of the Claims. *)
Definition HasRole (c : Claims) (role : string) : bool :=
  existsb (String.eqb role) (Roles c).

(** The four ways verification fails. *)
Inductive VerifyError : Type :=
| MalformedToken
| UnknownKey
| BadSignature
| Expired.

(** Modelled from the spec: issue(claims) -> token.  The claims are signed
    with the private key and the key id is put in the header. *)
Definition GenerateToken (a : Authenticator) (c : Claims) : Token :=
  let h := mkHeader (algorithm a) (keyID a) in
  Compact h c (sign (privateKey a) h c).

(** The validity window of the temporal fields at time [now]. *)
Definition in_window (now : Z) (c : Claims) : bool :=
  Z.leb (NotBefore c) now && Z.leb now (ExpiresAt c).

(** Modelled from the spec: verify(token) -> claims, at current time [now].
    The key id of the header is resolved by the lookup, the signature is
    checked against that public key, then the validity window against the
    current time. *)
Definition ParseClaims (a : Authenticator) (now : Z) (t : Token)
  : VerifyError + Claims :=
  match t with
  | Garbage _ => inl MalformedToken
  | Compact h c s =>
      match pubKeyLookupFunc a (kid h) with
      | None => inl UnknownKey
      | Some p =>
          if negb (check p h c s) then inl BadSignature
          else if negb (in_window now c) then inl Expired
          else inr c
      end
  end.

(** The invariant of the signing key material: the lookup of the key id
    returns the public half of the signing key. *)
Definition well_keyed (a : Authenticator) : Prop :=
  pubKeyLookupFunc a (keyID a) = Some (Public (privateKey a)).

End auth.

(** ** net/http requests *)

(** The Authorization header, by scheme. *)
Inductive Authorization : Type :=
| Bearer (t : auth.Token)
| Basic (email password : string)
| OtherScheme (text : string).

(** An *http.Request: the path is kept as its segments, the body as the JSON
    document it holds ([None] when it holds none). *)
Record Request : Type := mkRequest {
  Method        : string;
  Path          : list string;
  Authorization_hdr : option Authorization;
  Body          : option JSON;
  RemoteAddr    : string
}.

Definition URL_Path (r : Request) : string :=
  fold_right (fun seg acc => ("/" ++ seg ++ acc)%string) ""%string (Path r).

Definition Params : Type := list (string * string).

(** params[name]: the empty string when the key is absent. *)
Fixpoint param (ps : Params) (name : string) : string :=
  match ps with
  | [] => ""
  | (k, v) :: t => if String.eqb k name then v else param t name
  end.

(** web.Handler and web.Middleware *)
Definition Handler : Type := Ctx -> Request -> Params -> M error.
Definition Middleware : Type := Handler -> Handler.

(** ** package web *)

Module web.

(** Package web has no file among the sources; the handlers, the route
    table and the Logger middleware that call it have.  Its functions are
    modelled from the spec, each one marked so. *)

Section Package.
Context {L : Libs}.

(** Modelled from the spec: web.NewRequestError, an error tagged with the
    status the translation layer answers with. *)
Definition NewRequestError (e : error) (status : Z) : error :=
  Some (ErrWeb e status []).

(** Modelled from the spec: web.NewShutdownError, the shutdown-triggering
    error. *)
Definition NewShutdownError (message : string) : error :=
  Some (ErrShutdown message).

Definition IsShutdown (e : err) : bool :=
  match Cause e with
  | ErrShutdown _ => true
  | _ => false
  end.

(** The Error() method; [None] where it dereferences nil. *)
Fixpoint err_Error (e : err) : option string :=
  match e with
  | ErrNotFound => Some "Restaurant not found"
  | ErrInvalidID => Some "ID is not in its proper form"
  | ErrForbidden => Some "Attempted action is not allowed"
  | ErrNoRows => Some "sql: no rows in result set"
  | ErrNew msg => Some msg
  | ErrWrap c format args =>
      match err_Error c with
      | Some s => Some (Sprintf format args ++ ": " ++ s)%string
      | None => None
      end
  | ErrWeb (Some c) _ _ => err_Error c
  | ErrWeb None _ _ => None
  | ErrShutdown msg => Some msg
  end.

(** *** JSON text of an ErrorResponse *)

Definition quote : string := String (ascii_of_nat 34) "".
Definition backslash : string := String (ascii_of_nat 92) "".

Definition hexdigit (n : nat) : ascii :=
  if Nat.ltb n 10 then ascii_of_nat (48 + n) else ascii_of_nat (87 + n).

Definition escape_char (c : ascii) : string :=
  let n := nat_of_ascii c in
  if Nat.eqb n 34 then (backslash ++ quote)%string
  else if Nat.eqb n 92 then (backslash ++ backslash)%string
  else if Nat.eqb n 10 then (backslash ++ "n")%string
  else if Nat.eqb n 13 then (backslash ++ "r")%string
  else if Nat.eqb n 9 then (backslash ++ "t")%string
  else if Nat.ltb n 32 || Nat.eqb n 60 || Nat.eqb n 62 || Nat.eqb n 38 then
    (backslash ++ "u00"
       ++ String (hexdigit (Nat.div n 16)) (String (hexdigit (Nat.modulo n 16)) ""))%string
  else String c "".

Fixpoint escape (s : string) : string :=
  match s with
  | EmptyString => ""
  | String c t => (escape_char c ++ escape t)%string
  end.

Definition json_string (s : string) : string := (quote ++ escape s ++ quote)%string.

Definition json_FieldError (f : FieldError) : string :=
  ("{" ++ json_string "field" ++ ":" ++ json_string (fe_Field f) ++ ","
       ++ json_string "error" ++ ":" ++ json_string (fe_Error f) ++ "}")%string.

Fixpoint json_list (l : list string) : string :=
  match l with
  | [] => ""
  | [x] => x
  | x :: t => (x ++ "," ++ json_list t)%string
  end.

(** Modelled from the spec: the JSON text of web.ErrorResponse, with the
    member error and, when there are fields, the member fields. *)
Definition json_ErrorResponse (er : ErrorResponse) : string :=
  ("{" ++ json_string "error" ++ ":" ++ json_string (er_Error er)
       ++ match er_Fields er with
          | [] => ""
          | fs => "," ++ json_string "fields" ++ ":["
                      ++ json_list (map json_FieldError fs) ++ "]"
          end
       ++ "}")%string.

Definition Marshal (data : payload) : string :=
  match data with
  | PErrorResponse er => json_ErrorResponse er
  | _ => json_Marshal data
  end.

(** *** Writing the response *)

Definition WriteHeader (statusCode : Z) : M unit :=
  modify (with_resp (fun rw =>
    match rw_status rw with
    | Some _ => rw
    | None => mkResponseWriter (Some statusCode) (rw_body rw) (rw_contentType rw)
    end)).

Definition SetContentType (ct : string) : M unit :=
  modify (with_resp (fun rw =>
    mkResponseWriter (rw_status rw) (rw_body rw) (Some ct))).

Definition Write (bytes : string) : M unit :=
  modify (with_resp (fun rw =>
    mkResponseWriter
      (match rw_status rw with Some s => Some s | None => Some StatusOK end)
      (rw_body rw ++ bytes)%string (rw_contentType rw))).

(** Modelled from the spec: web.Respond records the status in the Context
    Values, then writes the status and, unless it is 204, the JSON text of
    [data]. *)
Definition Respond (ctx : Ctx) (data : payload) (statusCode : Z) : M error :=
  match ctx_values ctx with
  | None => ret (NewShutdownError "web value missing from context")
  | Some p =>
      v <- load p ;;
      store p (mkValues (TraceID v) (Now v) statusCode) ;;;
      if statusCode =? StatusNoContent then
        WriteHeader statusCode ;;;
        ret None
      else
        SetContentType "application/json" ;;;
        WriteHeader statusCode ;;;
        Write (Marshal data) ;;;
        ret None
  end.

(** Modelled from the spec: web.RespondError, the translation of an error
    into a response.  A request error answers with its own status, the
    message of the error it wraps and its fields; anything else answers 500
    with a generic message. *)
Definition RespondError (ctx : Ctx) (e : err) : M error :=
  match Cause e with
  | ErrWeb (Some c) status fields =>
      match err_Error c with
      | Some msg => Respond ctx (PErrorResponse (mkErrorResponse msg fields)) status
      | None => fun w => (Fault "nil pointer dereference", w)
      end
  | ErrWeb None _ _ => fun w => (Fault "nil pointer dereference", w)
  | _ =>
      Respond ctx (PErrorResponse (mkErrorResponse "Internal Server Error" []))
              StatusInternalServerError
  end.

(** Modelled from the spec: web.Decode.  The body is decoded into the
    target document and the document validated; failed validation is a
    request error 400 named "field validation error" that carries one entry
    per failing field. *)
Definition Decode {T} (unmarshal : JSON -> option T)
    (validate : T -> list FieldError) (r : Request) : err + T :=
  match Body r with
  | None => inl (ErrNew "decoding request body")
  | Some j =>
      match unmarshal j with
      | None => inl (ErrNew "decoding request body")
      | Some v =>
          match validate v with
          | [] => inr v
          | fields =>
              inl (ErrWeb (Some (ErrNew "field validation error"))
                          StatusBadRequest fields)
          end
      end
  end.

Fixpoint member (name : string) (ms : list (string * JSON)) : option JSON :=
  match ms with
  | [] => None
  | (k, v) :: t => if String.eqb k name then Some v else member name t
  end.

Definition string_member (name : string) (ms : list (string * JSON))
  : option string :=
  match member name ms with
  | None | Some JNull => Some ""
  | Some (JStr s) => Some s
  | Some _ => None
  end.

(** Modelled from the spec: the JSON members and the validation of
    restaurant.NewRestaurant, whose declaration has no file among the
    sources: name and address, both required. *)
Definition json_NewRestaurant (j : JSON) : option NewRestaurant :=
  match j with
  | JObj ms =>
      match string_member "name" ms, string_member "address" ms with
      | Some n, Some a => Some (mkNewRestaurant n a)
      | _, _ => None
      end
  | _ => None
  end.

Definition required (field value : string) : list FieldError :=
  if String.eqb value "" then
    [mkFieldError field (field ++ " is a required field")%string]
  else [].

Definition validate_NewRestaurant (nr : NewRestaurant) : list FieldError :=
  required "name" (nr_Name nr) ++ required "address" (nr_Address nr).

(** *** The App *)

Section Router.
Variables H MW : Type.

Record Route : Type := mkRoute {
  rt_verb    : string;
  rt_path    : string;
  rt_handler : H;
  rt_mw      : list MW
}.

Record App : Type := mkApp {
  app_mw     : list MW;
  app_routes : list Route
}.

Definition NewApp (mw : list MW) : App := mkApp mw [].

(** Modelled from the spec: app.Handle(verb, path, handler, mw...) adds
    the route to the table. *)
Definition Handle (verb path : string) (handler : H) (mw : list MW) (a : App)
  : App :=
  mkApp (app_mw a) (app_routes a ++ [mkRoute verb path handler mw]).

Variable handler_of : H -> Handler.
Variable middleware_of : MW -> Middleware.

(** Modelled from the spec: the first middleware of the list is the
    outermost. *)
Definition wrapMiddleware (mw : list MW) (handler : Handler) : Handler :=
  fold_right (fun m h => middleware_of m h) handler mw.

(** The route's own middlewares go around the handler, the App's around
    those. *)
Definition wrapped (a : App) (rt : Route) : Handler :=
  wrapMiddleware (app_mw a) (wrapMiddleware (rt_mw rt) (handler_of (rt_handler rt))).

(** The segments of a path pattern. *)
Fixpoint split_from (s : string) (cur : string) : list string :=
  match s with
  | EmptyString => [cur]
  | String c t =>
      if Ascii.eqb c "/"%char then cur :: split_from t ""
      else split_from t (cur ++ String c "")%string
  end.

Definition segments (pattern : string) : list string :=
  match pattern with
  | String c t => if Ascii.eqb c "/"%char then split_from t "" else split_from pattern ""
  | EmptyString => []
  end.

(** Literal segments match themselves, a named segment binds its name. *)
Fixpoint match_path (pattern path : list string) : option Params :=
  match pattern, path with
  | [], [] => Some []
  | p :: ps, s :: ss =>
      match p with
      | String c name =>
          if Ascii.eqb c ":"%char then
            match match_path ps ss with
            | Some bound => Some ((name, s) :: bound)
            | None => None
            end
          else if String.eqb p s then match_path ps ss else None
      | EmptyString => if String.eqb p s then match_path ps ss else None
      end
  | _, _ => None
  end.

Fixpoint lookup (routes : list Route) (r : Request) : option (Route * Params) :=
  match routes with
  | [] => None
  | rt :: rest =>
      if String.eqb (rt_verb rt) (Method r) then
        match match_path (segments (rt_path rt)) (Path r) with
        | Some ps => Some (rt, ps)
        | None => lookup rest r
        end
      else lookup rest r
  end.

(** Modelled from the spec: a shutdown error that leaves the request is
    forwarded on the shutdown channel as the integrity signal. *)
Definition SignalShutdown : M unit :=
  modify (with_shutdown (fun ch => ch ++ [SIGSTOP])).

(** Modelled from the spec: ServeHTTP dispatches one request.  The response
    writer is fresh; a match builds the Context Values (a new trace id, the
    start time) and runs the wrapped handler; no match answers not-found
    and runs nothing. *)
Definition ServeHTTP (a : App) (r : Request) : M unit :=
  modify (with_resp (fun _ => rw_empty)) ;;;
  match lookup (app_routes a) r with
  | None => WriteHeader StatusNotFound
  | Some (rt, params) =>
      id <- uuid_New ;;
      now <- time_Now ;;
      p <- alloc (mkValues id now 0) ;;
      e <- wrapped a rt (ctx_WithValues p ctx_Background) r params ;;
      match e with
      | Some e' => if IsShutdown e' then SignalShutdown else ret tt
      | None => ret tt
      end
  end.

End Router.
End Package.
End web.

(** ** package restaurant *)

Module restaurant.
Section Package.
Context {L : Libs}.

(** restaurant.List *)
Definition List (ctx : Ctx) : M (list Restaurant * error) :=
  with_span ctx "internal.restaurant.List" (fun ctx =>
    res <- lift_db db_SelectRestaurants ;;
    match res with
    | inl e => ret ([], Wrap (Some e) "selecting restaurants")
    | inr restaurants => ret (restaurants, None)
    end).

(** restaurant.Create *)
Definition Create (ctx : Ctx) (user : Claims) (nr : NewRestaurant) (now : Z)
  : M (option Restaurant * error) :=
  with_span ctx "internal.restaurant.Create" (fun ctx =>
    let currentTime := now in
    id <- uuid_New ;;
    let r := mkRestaurant id (nr_Name nr) (nr_Address nr) (Subject user)
                          currentTime currentTime in
    e <- lift_db (db_Exec (qInsertRestaurant r)) ;;
    match e with
    | Some e' => ret (None, Wrap (Some e') "inserting restaurant")
    | None => ret (Some r, None)
    end).

(** restaurant.Retrieve *)
Definition Retrieve (ctx : Ctx) (id : string) : M (option Restaurant * error) :=
  with_span ctx "internal.restaurant.Retrieve" (fun ctx =>
    if negb (uuid_Parse id) then ret (None, Some ErrInvalidID)
    else
      res <- lift_db (db_GetRestaurant id) ;;
      match res with
      | inl ErrNoRows => ret (None, Some ErrNotFound)
      | inl e => ret (None, Wrap (Some e) "selecting single restaurant")
      | inr r => ret (Some r, None)
      end).

(** restaurant.Update *)
Definition Update (ctx : Ctx) (user : Claims) (id : string)
    (update : UpdateRestaurant) (now : Z) : M error :=
  with_span ctx "internal.restaurant.Update" (fun ctx =>
    res <- Retrieve ctx id ;;
    match res with
    | (_, Some e) => ret (Some e)
    | (None, None) => fun w => (Fault "nil pointer dereference", w)
    | (Some r, None) =>
        if negb (auth.HasRole user RoleAdmin)
           && negb (String.eqb (r_OwnerUserID r) (Subject user))
        then ret (Some ErrForbidden)
        else
          let name := match up_Name update with Some n => n | None => r_Name r end in
          let address :=
            match up_Address update with Some a => a | None => r_Address r end in
          let updated := now in
          e <- lift_db (db_Exec (qUpdateRestaurant id name address updated)) ;;
          match e with
          | Some e' => ret (Wrap (Some e') "updating restaurant")
          | None => ret None
          end
    end).

(** restaurant.Delete *)
Definition Delete (ctx : Ctx) (id : string) : M error :=
  with_span ctx "internal.restaurant.Delete" (fun ctx =>
    if negb (uuid_Parse id) then ret (Some ErrInvalidID)
    else
      e <- lift_db (db_Exec (qDeleteRestaurant id)) ;;
      match e with
      | Some e' => ret (Wrapf (Some e') "deleting restaurant %s" [FStr id])
      | None => ret None
      end).

(** restaurant.CreateMenu *)
Definition CreateMenu (ctx : Ctx) (user : Claims) (nm : NewMenu) (now : Z)
  : M (option Menu * error) :=
  with_span ctx "internal.Restaurant.CreateMenu" (fun ctx =>
    let currentTime := now in
    id <- uuid_New ;;
    let m := mkMenu id (nm_RestaurantID nm) currentTime (nm_Menu nm) 0 in
    e <- lift_db (db_Exec (qInsertMenu m)) ;;
    match e with
    | Some e' => ret (None, Wrap (Some e') "inserting menu")
    | None => ret (Some m, None)
    end).

(** restaurant.MenuRetrieve *)
Definition MenuRetrieve (ctx : Ctx) (id : string) : M (option Menu * error) :=
  with_span ctx "internal.restaurant.Retrieve" (fun ctx =>
    if negb (uuid_Parse id) then ret (None, Some ErrInvalidID)
    else
      res <- lift_db (db_GetMenu id) ;;
      match res with
      | inl ErrNoRows => ret (None, Some ErrNotFound)
      | inl e => ret (None, Wrap (Some e) "selecting single menu")
      | inr m => ret (Some m, None)
      end).

(** restaurant.MenuUpdate *)
Definition MenuUpdate (ctx : Ctx) (user : Claims) (restaurantId : string)
    (update : UpdateMenu) (now : Z) : M error :=
  with_span ctx "internal.Restaurant.MenuUpdate" (fun ctx =>
    res <- Retrieve ctx restaurantId ;;
    match res with
    | (_, Some e) => ret (Some e)
    | (None, None) => fun w => (Fault "nil pointer dereference", w)
    | (Some r, None) =>
        if negb (String.eqb (r_OwnerUserID r) (Subject user))
        then ret (Some ErrForbidden)
        else
          res' <- MenuRetrieve ctx (um_ID update) ;;
          match res' with
          | (_, Some e) => ret (Some e)
          | (None, None) => fun w => (Fault "nil pointer dereference", w)
          | (Some m, None) =>
              (* the fields of the local copy; the statement below does not
                 read them *)
              let m :=
                if negb (String.eqb (um_Menu update) "")
                then set_menu (um_Menu update) (um_Date update) m else m in
              e <- lift_db (db_Exec (qUpdateMenu (um_ID update) (um_Menu update)
                                                 (um_Date update))) ;;
              match e with
              | Some e' => ret (Wrap (Some e') "updating menu")
              | None => ret None
              end
          end
    end).

End Package.
End restaurant.

(** ** package mid *)

Module mid.
Section Package.
Context {L : Libs}.

(** mid.Logger *)
Definition Logger : Middleware :=
  fun before ctx r params =>
    with_span ctx "internal.mid.Logger" (fun ctx =>
      match ctx_values ctx with
      | None => ret (web.NewShutdownError "web value missing from context")
      | Some p =>
          e <- before ctx r params ;;
          v <- load p ;;
          now <- time_Now ;;
          log_Printf "%s : (%d) : %s %s -> %s (%s)"
            [LA (FStr (TraceID v)); LA (FInt (StatusCode v));
             LA (FStr (Method r)); LA (FStr (URL_Path r));
             LA (FStr (RemoteAddr r)); LA (FDuration (now - Now v))] ;;;
          ret e
      end).

(** Modelled from the spec: mid.Errors, which has no file among the
    sources.  An error of the inner handler is translated into the
    response; only a shutdown error is passed on. *)
Definition Errors : Middleware :=
  fun before ctx r params =>
    e <- before ctx r params ;;
    match e with
    | None => ret None
    | Some e' =>
        re <- web.RespondError ctx e' ;;
        match re with
        | Some x => ret (Some x)
        | None => if web.IsShutdown e' then ret (Some e') else ret None
        end
    end.

(** Modelled from the spec: mid.Metrics, which has no file among the
    sources, counts the request and, when it failed, the error. *)
Definition Metrics : Middleware :=
  fun before ctx r params =>
    e <- before ctx r params ;;
    modify (with_metrics (fun m =>
      mkMetrics (mt_requests m + 1)
                (match e with Some _ => mt_errors m + 1 | None => mt_errors m end))) ;;;
    ret e.

(** Modelled from the spec: mid.Panics, which has no file among the
    sources.  A fault of the inner handler becomes an unclassified error. *)
Definition Panics : Middleware :=
  fun before ctx r params w =>
    match before ctx r params w with
    | (Fault reason, w') => (Ret (Some (ErrNew ("panic: " ++ reason)%string)), w')
    | (Ret e, w') => (Ret e, w')
    end.

(** Modelled from the spec: mid.Authenticate, which has no file among the
    sources.  A bearer token that verifies puts its Claims in the context;
    anything else is unauthorized. *)
Definition Authenticate (a : auth.Authenticator) : Middleware :=
  fun after ctx r params =>
    match Authorization_hdr r with
    | Some (Bearer t) =>
        now <- time_Now ;;
        match auth.ParseClaims a now t with
        | inl _ =>
            ret (web.NewRequestError (Some (ErrNew "unauthorized")) StatusUnauthorized)
        | inr claims => after (ctx_WithClaims claims ctx) r params
        end
    | _ => ret (web.NewRequestError (Some (ErrNew "unauthorized")) StatusUnauthorized)
    end.

(** Modelled from the spec: mid.HasRole, which has no file among the
    sources.  The Claims of the context must hold the role. *)
Definition HasRole (role : string) : Middleware :=
  fun after ctx r params =>
    match ctx_claims ctx with
    | None => ret (web.NewShutdownError "claims missing from context")
    | Some claims =>
        if auth.HasRole claims role then after ctx r params
        else ret (web.NewRequestError (Some (ErrNew "forbidden")) StatusForbidden)
    end.

End Package.
End mid.

(** ** package handlers *)

Module handlers.

(** The handlers and middlewares that routes.go names. *)
Inductive handler_name : Type :=
| Check_Health (build : string)
| User_List
| User_Create
| User_Token (authenticator : auth.Authenticator)
| Restaurant_List
| Restaurant_Create
| Restaurant_Retrieve
| Restaurant_Update
| Restaurant_Delete
| Menu_RetrieveMenu
| Menu_RetrieveVotes
| Menu_CreateMenu.

Inductive middleware_name : Type :=
| mid_Logger
| mid_Errors
| mid_Metrics
| mid_Panics
| mid_Authenticate (authenticator : auth.Authenticator)
| mid_HasRole (role : string).

(** The handlers of check.go and user.go, files that are not among the
    sources: they are parameters. *)
Class Absent : Type := {
  Check_Health_handler : string -> Handler;
  User_List_handler : Handler;
  User_Create_handler : Handler;
  User_Token_handler : auth.Authenticator -> Handler
}.

Definition GET : string := "GET".
Definition PUT : string := "PUT".
Definition POST : string := "POST".
Definition DELETE : string := "DELETE".

Section Package.
Context {L : Libs} {A : Absent}.

(** Restaurant.List *)
Definition Restaurant_List_handler : Handler :=
  fun ctx r params =>
    with_span ctx "handlers.Restaurant.List" (fun ctx =>
      res <- restaurant.List ctx ;;
      match res with
      | (_, Some e) => ret (Some e)
      | (restaurants, None) => web.Respond ctx (PRestaurants restaurants) StatusOK
      end).

(** Restaurant.Retrieve *)
Definition Restaurant_Retrieve_handler : Handler :=
  fun ctx r params =>
    with_span ctx "handlers.Restaurant.Retrieve" (fun ctx =>
      res <- restaurant.Retrieve ctx (param params "id") ;;
      match res with
      | (_, Some e) =>
          match e with
          | ErrInvalidID => ret (web.NewRequestError (Some e) StatusBadRequest)
          | ErrNotFound => ret (web.NewRequestError (Some e) StatusNotFound)
          | _ => ret (Wrapf (Some e) "ID: %s" [FStr (param params "id")])
          end
      | (Some restRetrieved, None) =>
          web.Respond ctx (PRestaurant restRetrieved) StatusOK
      | (None, None) => web.Respond ctx PNil StatusOK
      end).

(** Restaurant.Create *)
Definition Restaurant_Create_handler : Handler :=
  fun ctx r params =>
    with_span ctx "handlers.Restaurant.Create" (fun ctx =>
      match ctx_claims ctx with
      | None => ret (web.NewShutdownError "claims missing from context")
      | Some claims =>
          match ctx_values ctx with
          | None => ret (web.NewShutdownError "web value missing from context")
          | Some p =>
              match web.Decode web.json_NewRestaurant web.validate_NewRestaurant r with
              | inl e => ret (Wrap (Some e) "decoding new restaurant")
              | inr nr =>
                  v <- load p ;;
                  res <- restaurant.Create ctx claims nr (Now v) ;;
                  match res with
                  | (_, Some e) =>
                      ret (Wrapf (Some e) "creating new restaurant: %+v"
                                 [FNewRestaurant nr])
                  | (Some restResult, None) =>
                      web.Respond ctx (PRestaurant restResult) StatusCreated
                  | (None, None) => web.Respond ctx PNil StatusCreated
                  end
              end
          end
      end).

(** Restaurant.Update *)
Definition Restaurant_Update_handler : Handler :=
  fun ctx r params =>
    with_span ctx "handlers.Restaurant.Update" (fun ctx =>
      match ctx_claims ctx with
      | None => ret (web.NewShutdownError "claims missing from context")
      | Some claims =>
          match ctx_values ctx with
          | None => ret (web.NewShutdownError "web value missing from context")
          | Some p =>
              match web.Decode json_UpdateRestaurant validate_UpdateRestaurant r with
              | inl e => ret (Wrap (Some e) "")
              | inr up =>
                  v <- load p ;;
                  e <- restaurant.Update ctx claims (param params "id") up (Now v) ;;
                  match e with
                  | Some ErrInvalidID =>
                      ret (web.NewRequestError e StatusBadRequest)
                  | Some ErrNotFound =>
                      ret (web.NewRequestError e StatusNotFound)
                  | Some ErrForbidden =>
                      ret (web.NewRequestError e StatusForbidden)
                  | Some _ =>
                      ret (Wrapf e "updating restaurant %q: %+v"
                                 [FStr (param params "id"); FUpdateRestaurant up])
                  | None => web.Respond ctx PNil StatusNoContent
                  end
              end
          end
      end).

(** Restaurant.Delete *)
Definition Restaurant_Delete_handler : Handler :=
  fun ctx r params =>
    with_span ctx "handlers.Restaurant.Delete" (fun ctx =>
      e <- restaurant.Delete ctx (param params "id") ;;
      match e with
      | Some ErrInvalidID => ret (web.NewRequestError e StatusBadRequest)
      | Some _ => ret (Wrapf e "Id: %s" [FStr (param params "id")])
      | None => web.Respond ctx PNil StatusNoContent
      end).

(** Menu.RetrieveMenu and Menu.RetrieveVotes share one body. *)
Definition Menu_Retrieve_body : Handler :=
  fun ctx r params =>
    with_span ctx "handlers.Menu.Retrieve" (fun ctx =>
      res <- restaurant.MenuRetrieve ctx (param params "restaurantId") ;;
      match res with
      | (_, Some e) =>
          match e with
          | ErrInvalidID => ret (web.NewRequestError (Some e) StatusBadRequest)
          | ErrNotFound => ret (web.NewRequestError (Some e) StatusNotFound)
          | _ => ret (Wrapf (Some e) "ID: %s" [FStr (param params "id")])
          end
      | (Some menuRetrieved, None) => web.Respond ctx (PMenu menuRetrieved) StatusOK
      | (None, None) => web.Respond ctx PNil StatusOK
      end).

Definition Menu_RetrieveMenu_handler : Handler := Menu_Retrieve_body.
Definition Menu_RetrieveVotes_handler : Handler := Menu_Retrieve_body.

(** Menu.CreateMenu *)
Definition Menu_CreateMenu_handler : Handler :=
  fun ctx r params =>
    with_span ctx "handlers.Menu.CreateMenu" (fun ctx =>
      match ctx_claims ctx with
      | None => ret (web.NewShutdownError "claims missing from context")
      | Some claims =>
          match ctx_values ctx with
          | None => ret (web.NewShutdownError "web value missing from context")
          | Some p =>
              let restaurantId := param params "restaurantId" in
              match web.Decode json_NewMenu validate_NewMenu r with
              | inl e => ret (Wrap (Some e) "decoding new menu")
              | inr nm =>
                  if negb (String.eqb (nm_RestaurantID nm) restaurantId)
                  then ret (Some ErrInvalidID)
                  else
                    res <- restaurant.Retrieve ctx restaurantId ;;
                    match res with
                    | (_, Some e) =>
                        match e with
                        | ErrInvalidID =>
                            ret (web.NewRequestError (Some e) StatusBadRequest)
                        | ErrNotFound =>
                            ret (web.NewRequestError (Some e) StatusNotFound)
                        | ErrForbidden =>
                            ret (web.NewRequestError (Some e) StatusForbidden)
                        | _ =>
                            ret (Wrapf (Some e) "retrieving restaurant id: %s"
                                       [FStr restaurantId])
                        end
                    | (None, None) => fun w => (Fault "nil pointer dereference", w)
                    | (Some restaurantRes, None) =>
                        if negb (String.eqb (r_OwnerUserID restaurantRes)
                                            (Subject claims))
                        then
                          (* err is nil at this point *)
                          ret (web.NewRequestError None StatusForbidden)
                        else
                          v <- load p ;;
                          res' <- restaurant.CreateMenu ctx claims nm (Now v) ;;
                          match res' with
                          | (_, Some e) =>
                              ret (Wrapf (Some e) "creating new menu: %+v"
                                         [FNewMenu nm])
                          | (Some restResult, None) =>
                              web.Respond ctx (PMenu restResult) StatusCreated
                          | (None, None) => web.Respond ctx PNil StatusCreated
                          end
                    end
              end
          end
      end).

Definition handler_of (h : handler_name) : Handler :=
  match h with
  | Check_Health build => Check_Health_handler build
  | User_List => User_List_handler
  | User_Create => User_Create_handler
  | User_Token a => User_Token_handler a
  | Restaurant_List => Restaurant_List_handler
  | Restaurant_Create => Restaurant_Create_handler
  | Restaurant_Retrieve => Restaurant_Retrieve_handler
  | Restaurant_Update => Restaurant_Update_handler
  | Restaurant_Delete => Restaurant_Delete_handler
  | Menu_RetrieveMenu => Menu_RetrieveMenu_handler
  | Menu_RetrieveVotes => Menu_RetrieveVotes_handler
  | Menu_CreateMenu => Menu_CreateMenu_handler
  end.

Definition middleware_of (m : middleware_name) : Middleware :=
  match m with
  | mid_Logger => mid.Logger
  | mid_Errors => mid.Errors
  | mid_Metrics => mid.Metrics
  | mid_Panics => mid.Panics
  | mid_Authenticate a => mid.Authenticate a
  | mid_HasRole role => mid.HasRole role
  end.

End Package.

(** The handlers of menu.go that routes.go does not register. *)
Section Unrouted.
Context {L : Libs}.

(** json decoding and validation of a restaurant.UpdateMenu, whose struct
    tags are declared in a file that is not among the sources. *)
Variable json_UpdateMenu : JSON -> option UpdateMenu.
Variable validate_UpdateMenu : UpdateMenu -> list FieldError.

(** Menu.List *)
Definition Menu_List_handler : Handler :=
  fun ctx r params =>
    with_span ctx "handlers.Menu.List" (fun ctx =>
      res <- restaurant.List ctx ;;
      match res with
      | (_, Some e) => ret (Some e)
      | (restaurants, None) => web.Respond ctx (PRestaurants restaurants) StatusOK
      end).

(** Menu.Update *)
Definition Menu_Update_handler : Handler :=
  fun ctx r params =>
    with_span ctx "handlers.Menu.Update" (fun ctx =>
      match ctx_claims ctx with
      | None => ret (web.NewShutdownError "claims missing from context")
      | Some claims =>
          match ctx_values ctx with
          | None => ret (web.NewShutdownError "web value missing from context")
          | Some p =>
              match web.Decode json_UpdateMenu validate_UpdateMenu r with
              | inl e => ret (Wrap (Some e) "request decode")
              | inr up =>
                  v <- load p ;;
                  e <- restaurant.MenuUpdate ctx claims (param params "restaurantId")
                                             up (Now v) ;;
                  match e with
                  | Some ErrInvalidID =>
                      ret (web.NewRequestError e StatusBadRequest)
                  | Some ErrNotFound =>
                      ret (web.NewRequestError e StatusNotFound)
                  | Some ErrForbidden =>
                      ret (web.NewRequestError e StatusForbidden)
                  | Some _ =>
                      ret (Wrapf e "updating menu %q: %+v"
                                 [FStr (param params "restaurantId"); FUpdateMenu up])
                  | None => ret None
                  end
              end
          end
      end).

End Unrouted.

Definition App : Type := web.App handler_name middleware_name.
Definition Handle := @web.Handle handler_name middleware_name.

(** handlers.API: the route table of the service. *)
Definition API (build : string) (authenticator : auth.Authenticator) : App :=
  let app := web.NewApp handler_name middleware_name
               [mid_Logger; mid_Errors; mid_Metrics; mid_Panics] in

  let app := Handle GET "/v1/health" (Check_Health build) [] app in

  let app := Handle GET "/v1/users" User_List
               [mid_Authenticate authenticator; mid_HasRole RoleAdmin] app in
  let app := Handle POST "/v1/users" User_Create
               [mid_Authenticate authenticator; mid_HasRole RoleAdmin] app in

  let app := Handle GET "/v1/users/token" (User_Token authenticator) [] app in

  let app := Handle GET "/v1/restaurant" Restaurant_List
               [mid_Authenticate authenticator] app in
  let app := Handle POST "/v1/restaurant" Restaurant_Create
               [mid_Authenticate authenticator] app in
  let app := Handle GET "/v1/restaurant/:id" Restaurant_Retrieve
               [mid_Authenticate authenticator] app in
  let app := Handle PUT "/v1/restaurant/:id" Restaurant_Update
               [mid_Authenticate authenticator] app in
  let app := Handle DELETE "/v1/restaurant/:id" Restaurant_Delete
               [mid_Authenticate authenticator] app in

  let app := Handle GET "/v1/restaurant/:restaurantId/menu" Menu_RetrieveMenu
               [mid_Authenticate authenticator] app in
  let app := Handle GET "/v1/restaurant/:restaurantId/votes" Menu_RetrieveVotes
               [mid_Authenticate authenticator] app in
  let app := Handle POST "/v1/restaurant/:restaurantId/menu" Menu_CreateMenu
               [mid_Authenticate authenticator; mid_HasRole RoleAdmin] app in
  app.

(** The App serving one request. *)
Definition ServeHTTP {L : Libs} {A : Absent} (app : App) (r : Request) : M unit :=
  web.ServeHTTP handler_name middleware_name handler_of middleware_of app r.

End handlers.

(** ** package main *)

Module main.

Definition build : string := "develop".

(** What conf.Parse returns. *)
Inductive ParseOutcome : Type :=
| Parsed
| ErrHelpWanted
| ParseFailed (e : err).

(** What the select at the end of run receives. *)
Inductive Event : Type :=
| ServerError (e : error)
| Shutdown (sig : Signal).

(** The environment of one execution of run: the configuration, and what
    each call that leaves the process returns. *)
Record Env : Type := mkEnv {
  cfg_ShutdownTimeout : Z;
  cfg_DBHost          : string;
  conf_Parse          : ParseOutcome;
  conf_Usage          : string * error;
  conf_String         : string * error;
  ioutil_ReadFile     : error;
  ParseRSAPrivateKeyFromPEM : error;
  NewAuthenticator    : error;
  database_Open       : error;
  received            : Event;
  api_Shutdown        : error;
  api_Close           : error
}.

(** What run writes: lines of its logger and lines on standard output. *)
Inductive Out : Type :=
| Log (l : LogEntry)
| Stdout (s : string).

Definition Run : Type := list Out * error.

Definition emit (o : list Out) (k : Run) : Run :=
  let (out, e) := k in (o ++ out, e).

(** A deferred call writes after the body has returned. *)
Definition deferred (o : list Out) (body : Run) : Run :=
  let (out, e) := body in (out ++ o, e).

Definition return_ (e : error) : Run := ([], e).

(** The select statement and what follows it. *)
Definition shutdown_phase (env : Env) : Run :=
  match received env with
  | ServerError e => return_ (Wrap e "server error")
  | Shutdown sig =>
      emit [Log (Printf "main : %v : Start shtdown" [LA (FSignal sig)])]
      (let after_close (e : error) : Run :=
         if match sig with SIGSTOP => true | _ => false end
         then return_ (Some (ErrNew "integrity issue caused shutdown"))
         else match e with
              | Some _ => return_ (Wrap e "could not stop server gracefully")
              | None => return_ None
              end in
       match api_Shutdown env with
       | Some e =>
           emit [Log (Printf "main : Graceful shutdown did not complete in %v : %v"
                             [LA (FDuration (cfg_ShutdownTimeout env)); LErr e])]
                (after_close (api_Close env))
       | None => after_close None
       end)
  end.

(** main.run.  The lines of the two goroutines it starts are not part of
    its own sequence. *)
Definition run (env : Env) : Run :=
  match conf_Parse env with
  | ErrHelpWanted =>
      match conf_Usage env with
      | (_, Some e) => return_ (Wrap (Some e) "generating config usage")
      | (usage, None) => emit [Stdout usage] (return_ None)
      end
  | ParseFailed e => return_ (Wrap (Some e) "parsing config")
  | Parsed =>
      emit [Log (Printf "main : Started : Application initializing : version %q"
                        [LA (FStr build)])]
      (deferred [Log (Println [LA (FStr "main : Completed")])]
        match conf_String env with
        | (_, Some e) => return_ (Wrap (Some e) "generating config for output")
        | (out, None) =>
        emit [Log (Printf "main : Config :\n%v\n" [LA (FStr out)]);
              Log (Println [LA (FStr "main : Started : Initializing authentication support")])]
        match ioutil_ReadFile env with
        | Some e => return_ (Wrap (Some e) "reading auth private key")
        | None =>
        match ParseRSAPrivateKeyFromPEM env with
        | Some e => return_ (Wrap (Some e) "constructing authenticator")
        | None =>
        match NewAuthenticator env with
        | Some e => return_ (Wrap (Some e) "constructing authenticator")
        | None =>
        emit [Log (Println [LA (FStr "main . Started : Initializing database support")])]
        match database_Open env with
        | Some e => return_ (Wrap (Some e) "connecting to db")
        | None =>
        deferred [Log (Printf "main : Database Stopping : %s"
                              [LA (FStr (cfg_DBHost env))])]
          (emit [Log (Println [LA (FStr "main : Started : Initializing debugging support")]);
                 Log (Println [LA (FStr "main : Started : Initializing API support")])]
             (shutdown_phase env))
        end end end end end)
  end.

(** run has passed its start-up and waits in the select. *)
Definition started (env : Env) : bool :=
  match conf_Parse env, conf_String env, ioutil_ReadFile env,
        ParseRSAPrivateKeyFromPEM env, NewAuthenticator env, database_Open env with
  | Parsed, (_, None), None, None, None, None => true
  | _, _, _, _, _, _ => false
  end.

End main.

(** ** package tests *)

Module tests.

Definition maxAttempts : nat := 20.

(** The sleep after a failed ping, in milliseconds:
    time.Duration(maxAttempts) * 100 * time.Millisecond. *)
Definition pause : Z := Z.of_nat maxAttempts * 100.

(** What the readiness loop of NewUnit leaves behind: the last pingError,
    the pings made and the milliseconds slept. *)
Record Waited : Type := mkWaited {
  pingError : error;
  pings     : nat;
  slept     : Z
}.

(** The loop of NewUnit that waits for the database.  [ping n] is what the
    n-th call of db.Ping returns; [remaining] counts the attempts the loop
    condition still admits, [attempts] is the loop variable. *)
Fixpoint wait_from (ping : nat -> error) (remaining attempts : nat) (st : Waited)
  : Waited :=
  match remaining with
  | O => st
  | S k =>
      match ping attempts with
      | None => mkWaited None (S (pings st)) (slept st)
      | Some e =>
          wait_from ping k (S attempts)
                    (mkWaited (Some e) (S (pings st)) (slept st + pause))
      end
  end.

Definition wait_for_database (ping : nat -> error) : Waited :=
  wait_from ping maxAttempts 1 (mkWaited None 0 0).

End tests.

(** ** Sample instances

    A reference reading of the library parameters, and a small world, used
    to run the service on concrete requests. *)

Module sample.

Definition is_hex (c : ascii) : bool :=
  let n := nat_of_ascii c in
  (Nat.leb 48 n && Nat.leb n 57) || (Nat.leb 65 n && Nat.leb n 70)
  || (Nat.leb 97 n && Nat.leb n 102).

Definition is_dash (c : ascii) : bool := Ascii.eqb c "-"%char.

(** xxxxxxxx-xxxx-xxxx-xxxx-xxxxxxxxxxxx *)
Definition canonical (cs : list ascii) : bool :=
  Nat.eqb (List.length cs) 36
  && forallb (fun ic : nat * ascii =>
                let (i, c) := ic in
                if Nat.eqb i 8 || Nat.eqb i 13 || Nat.eqb i 18 || Nat.eqb i 23
                then is_dash c else is_hex c)
             (combine (seq 0 36) cs).

Definition lower (c : ascii) : ascii :=
  let n := nat_of_ascii c in
  if Nat.leb 65 n && Nat.leb n 90 then ascii_of_nat (n + 32) else c.

(** uuid.Parse after google/uuid: the canonical form, the same behind
    urn:uuid: or inside one more character on each side, or 32 hex digits. *)
Definition uuid_Parse (s : string) : bool :=
  let cs := list_ascii_of_string s in
  match List.length cs with
  | 36%nat => canonical cs
  | 45%nat =>
      String.eqb (string_of_list_ascii (map lower (firstn 9 cs))) "urn:uuid:"
      && canonical (skipn 9 cs)
  | 38%nat => canonical (firstn 36 (skipn 1 cs))
  | 32%nat => forallb is_hex cs
  | _ => false
  end.

Definition show_arg (a : fmtarg) : string :=
  match a with
  | FStr s => s
  | _ => "?"
  end.

Definition json_UpdateRestaurant (j : JSON) : option UpdateRestaurant :=
  match j with
  | JObj ms =>
      Some (mkUpdateRestaurant
              (match web.member "name" ms with Some (JStr s) => Some s | _ => None end)
              (match web.member "address" ms with Some (JStr s) => Some s | _ => None end))
  | _ => None
  end.

Definition json_NewMenu (j : JSON) : option NewMenu :=
  match j with
  | JObj ms =>
      match web.string_member "restaurant_id" ms, web.string_member "menu" ms with
      | Some rid, Some menu =>
          Some (mkNewMenu rid
                  (match web.member "date" ms with Some (JNum z) => z | _ => 0 end)
                  menu)
      | _, _ => None
      end
  | _ => None
  end.

#[export] Instance libs : Libs := {
  uuid_Parse := uuid_Parse;
  Sprintf := fun format args =>
    fold_left (fun acc a => (acc ++ " " ++ show_arg a)%string) args format;
  json_Marshal := fun _ => "{}";
  json_UpdateRestaurant := json_UpdateRestaurant;
  json_NewMenu := json_NewMenu;
  validate_UpdateRestaurant := fun _ => [];
  validate_NewMenu := fun nm =>
    web.required "restaurant_id" (nm_RestaurantID nm)
    ++ web.required "menu" (nm_Menu nm)
}.

#[export] Instance absent : handlers.Absent := {
  Check_Health_handler := fun build ctx r params =>
    web.Respond ctx (POther build) StatusOK;
  User_List_handler := fun ctx r params => web.Respond ctx (POther "") StatusOK;
  User_Create_handler := fun ctx r params => web.Respond ctx (POther "") StatusCreated;
  User_Token_handler := fun a ctx r params => web.Respond ctx (POther "") StatusOK
}.

Definition key : auth.PrivateKey := auth.Priv 7.
Definition kid : string := "4754d86b-7a6d-4df5-9c65-224741361492".

Definition authenticator : auth.Authenticator :=
  auth.mkAuthenticator key kid "RS256"
    (auth.NewSimpleKeyLookupFunc kid (auth.Public key)).

Definition admin : Claims :=
  mkClaims "5cf37266-3473-4006-984f-9325122678b7" ["ADMIN"; "USER"] 1000 4600 0.

Definition user : Claims :=
  mkClaims "45b5fbd3-755f-4379-8f07-a58d4a30fa2f" ["USER"] 1000 4600 0.

Definition known_id : string := "a224a8d6-3f9e-4b11-9900-e81a25d80702".
Definition unknown_id : string := "9b468f90-1cf1-4377-b3fa-68b450d632a0".

Definition a_restaurant : Restaurant :=
  mkRestaurant known_id "Alpha" "1 Main Street"
               "45b5fbd3-755f-4379-8f07-a58d4a30fa2f" 900 900.

Definition world : World :=
  mkWorld (mkDB [a_restaurant] [] [] [])
          [] [] [] 1200
          (fun _ => "0a1b2c3d-0000-4000-8000-000000000000") 0
          (mkMetrics 0 0) [] rw_empty.

Definition request (verb : string) (path : list string)
    (authz : option Authorization) (body : option JSON) : Request :=
  mkRequest verb path authz body "192.0.2.1:4711".

Definition bearer (c : Claims) : option Authorization :=
  Some (Bearer (auth.GenerateToken authenticator c)).

Definition app : handlers.App := handlers.API main.build authenticator.

(** A context as the App builds it, on cell 0 of a one-cell heap. *)
Definition ctx0 : Ctx := ctx_WithValues 0 ctx_Background.

Definition world1 : World :=
  with_heap (fun _ => [mkValues "trace-1" 1200 0]) world.

Definition env (ev : main.Event) (shutdown close : error) : main.Env :=
  main.mkEnv 5 "0.0.0.0" main.Parsed ("", None) ("--web-api-host", None)
             None None None None ev shutdown close.

End sample.

(** ** Definitions used to state the properties *)

(** What the spec's route table asks of a route. *)
Inductive requirement : Type :=
| NoAuth
| BearerToken
| BearerAdmin.

(** The route table of the spec's section on external interfaces, in the
    order the spec lists it. *)
Definition spec_route_table : list (string * string * requirement) :=
  [ ("GET", "/v1/health", NoAuth);
    ("GET", "/v1/users/token", NoAuth);
    ("GET", "/v1/users", BearerAdmin);
    ("POST", "/v1/users", BearerAdmin);
    ("GET", "/v1/restaurant", BearerToken);
    ("POST", "/v1/restaurant", BearerToken);
    ("GET", "/v1/restaurant/:id", BearerToken);
    ("PUT", "/v1/restaurant/:id", BearerToken);
    ("DELETE", "/v1/restaurant/:id", BearerToken);
    ("GET", "/v1/restaurant/:restaurantId/menu", BearerToken);
    ("GET", "/v1/restaurant/:restaurantId/votes", BearerToken);
    ("POST", "/v1/restaurant/:restaurantId/menu", BearerAdmin) ].

(** What the middlewares registered with a route ask of it. *)
Definition requirement_of (mw : list handlers.middleware_name) : option requirement :=
  match mw with
  | [] => Some NoAuth
  | [handlers.mid_Authenticate _] => Some BearerToken
  | [handlers.mid_Authenticate _; handlers.mid_HasRole role] =>
      if String.eqb role RoleAdmin then Some BearerAdmin else None
  | _ => None
  end.

Definition registered (app : handlers.App)
  : list (string * string * option requirement) :=
  map (fun rt => (web.rt_verb _ _ rt, web.rt_path _ _ rt,
                  requirement_of (web.rt_mw _ _ rt)))
      (web.app_routes _ _ app).

Definition entry_dec (x y : string * string * option requirement)
  : {x = y} + {x <> y}.
Proof. repeat decide equality. Defined.

(** A decision procedure for permutations of lists. *)
Section Permb.
Variable T : Type.
Variable dec : forall x y : T, {x = y} + {x <> y}.

Fixpoint extract (x : T) (l : list T) : option (list T) :=
  match l with
  | [] => None
  | y :: t =>
      if dec x y then Some t
      else match extract x t with
           | Some t' => Some (y :: t')
           | None => None
           end
  end.

Fixpoint permb (l1 l2 : list T) : bool :=
  match l1 with
  | [] => match l2 with [] => true | _ => false end
  | x :: t =>
      match extract x l2 with
      | Some l2' => permb t l2'
      | None => false
      end
  end.

End Permb.

(** The context and the line of mid.Logger. *)
Definition Logger_ctx (ctx : Ctx) : Ctx :=
  mkCtx (ctx_values ctx) (ctx_claims ctx) ("internal.mid.Logger" :: ctx_spans ctx).

Definition Logger_line (trace : string) (status : Z) (method path remote : string)
    (elapsed : Z) : LogEntry :=
  Printf "%s : (%d) : %s %s -> %s (%s)"
    [LA (FStr trace); LA (FInt status); LA (FStr method); LA (FStr path);
     LA (FStr remote); LA (FDuration elapsed)].

Definition span (name : string) (body : list SpanEvent) : list SpanEvent :=
  SpanStart name :: body ++ [SpanEnd name].

(** The response body of the malformed-id scenario, character by character:
    {"error":"ID is not in its proper form"} *)
Definition malformed_id_body : string :=
  ("{" ++ web.quote ++ "error" ++ web.quote ++ ":" ++ web.quote
       ++ "ID is not in its proper form" ++ web.quote ++ "}")%string.

(** Concrete inputs for the counterexamples. *)
Definition stale_claims : Claims := mkClaims "u-1" ["ADMIN"] 10 20 0.
Definition early_claims : Claims := mkClaims "u-1" ["ADMIN"] 10 20 15.

Definition env_forced_close : main.Env :=
  sample.env (main.Shutdown SIGTERM) (Some (ErrNew "context deadline exceeded")) None.

Definition get_malformed_unauthenticated : Request :=
  sample.request "GET" ["v1"; "restaurant"; "12345"] None None.

Definition delete_unknown_unauthenticated : Request :=
  sample.request "DELETE" ["v1"; "restaurant"; sample.unknown_id] None None.

(** A menu posted by the administrator, who does not own the restaurant of
    the path, and whose document names another restaurant. *)
Definition post_menu_other_id : Request :=
  sample.request "POST" ["v1"; "restaurant"; sample.known_id; "menu"]
    (sample.bearer sample.admin)
    (Some (JObj [("restaurant_id", JStr sample.unknown_id); ("menu", JStr "soup")])).

Definition admin_ctx : Ctx := ctx_WithClaims sample.admin sample.ctx0.

(** ** Definitions used to state further properties *)

(** The world an effectful call leaves, and what it returns. *)
Definition world_after {T} (m : M T) (w : World) : World := snd (m w).
Definition result_of {T} (m : M T) (w : World) : outcome T := fst (m w).

(** The statement a call sends next is served by the driver. *)
Definition served (n : nat) (w : World) : Prop :=
  nth n (db_faults (w_db w)) None = None.

Definition same_id (id : string) (r : Restaurant) : bool := String.eqb (r_ID r) id.
Definition menu_id (id : string) (m : Menu) : bool := String.eqb (m_ID m) id.

(** A world with one menu of the sample restaurant, and worlds whose driver
    fails the next statement. *)
Definition a_menu : Menu :=
  mkMenu "7c1f2f1e-58a9-4b7e-9d0c-3f1f0c2b6a11" sample.known_id 1100 "soup" 3.

Definition menu_world : World :=
  with_db (fun db => mkDB (db_restaurant db) [a_menu] (db_journal db) (db_faults db))
          sample.world1.

Definition broken_world (e : err) : World :=
  with_db (fun db => mkDB (db_restaurant db) (db_menu db) (db_journal db) [Some e])
          sample.world1.

Definition owner_ctx : Ctx := ctx_WithClaims sample.user sample.ctx0.

(** An environment of run with other results of api.Shutdown and
    api.Close. *)
Definition with_closing (shutdown close : error) (env : main.Env) : main.Env :=
  main.mkEnv (main.cfg_ShutdownTimeout env) (main.cfg_DBHost env)
             (main.conf_Parse env) (main.conf_Usage env) (main.conf_String env)
             (main.ioutil_ReadFile env) (main.ParseRSAPrivateKeyFromPEM env)
             (main.NewAuthenticator env) (main.database_Open env)
             (main.received env) shutdown close.

Definition line_Completed : main.Out :=
  main.Log (Println [LA (FStr "main : Completed")]).

Definition line_DatabaseStopping (env : main.Env) : main.Out :=
  main.Log (Printf "main : Database Stopping : %s" [LA (FStr (main.cfg_DBHost env))]).

Definition is_shutdown_line (o : main.Out) : bool :=
  match o with
  | main.Log (Printf format _) =>
      String.eqb format "main : %v : Start shtdown"
      || String.eqb format "main : Graceful shutdown did not complete in %v : %v"
  | _ => false
  end.

(** A database that answers the third ping. *)
Definition third_ping (n : nat) : error :=
  if Nat.ltb n 3 then Some (ErrNew "connection refused") else None.

(** * Properties *)

(** ** Helper lemmas *)

Lemma nth_alloc {T} (h : list T) (v d : T) : nth (length h) (h ++ [v]) d = v.
Proof. induction h; simpl; auto. Qed.

Lemma set_nth_alloc {T} (h : list T) (v v' : T) :
  set_nth (length h) v' (h ++ [v]) = h ++ [v'].
Proof. induction h; simpl; congruence. Qed.

Lemma extract_perm {T} dec (x : T) l l' :
  extract T dec x l = Some l' -> Permutation l (x :: l').
Proof.
  revert l'. induction l as [|y t IH]; simpl; intros l' H; [discriminate|].
  destruct (dec x y) as [->|_].
  - inversion H; subst. apply Permutation_refl.
  - destruct (extract T dec x t) as [t'|] eqn:E; [|discriminate].
    inversion H; subst.
    eapply perm_trans; [apply perm_skip, IH; reflexivity | apply perm_swap].
Qed.

Lemma permb_sound {T} dec (l1 l2 : list T) :
  permb T dec l1 l2 = true -> Permutation l1 l2.
Proof.
  revert l2. induction l1 as [|x t IH]; simpl; intros l2 H.
  - destruct l2; [constructor | discriminate].
  - destruct (extract T dec x l2) as [l2'|] eqn:E; [|discriminate].
    apply extract_perm in E. apply Permutation_sym.
    eapply perm_trans; [exact E | apply perm_skip, Permutation_sym, IH, H].
Qed.

Lemma header_eqb_refl h : auth.header_eqb h h = true.
Proof. unfold auth.header_eqb. now rewrite !String.eqb_refl. Qed.

Lemma claims_eqb_refl c : auth.claims_eqb c c = true.
Proof.
  unfold auth.claims_eqb.
  rewrite String.eqb_refl, !Z.eqb_refl.
  destruct (list_eq_dec string_dec (Roles c) (Roles c)); [reflexivity | congruence].
Qed.

Lemma check_sign k h c : auth.check (auth.Public k) h c (auth.sign k h c) = true.
Proof.
  destruct k as [n]; simpl.
  now rewrite Nat.eqb_refl, header_eqb_refl, claims_eqb_refl.
Qed.

Lemma run_started env :
  main.started env = true ->
  snd (main.run env) = snd (main.shutdown_phase env).
Proof.
  unfold main.started, main.run.
  destruct (main.conf_Parse env); try discriminate.
  destruct (main.conf_String env) as [out [e|]]; try discriminate.
  destruct (main.ioutil_ReadFile env); try discriminate.
  destruct (main.ParseRSAPrivateKeyFromPEM env); try discriminate.
  destruct (main.NewAuthenticator env); try discriminate.
  destruct (main.database_Open env); try discriminate.
  intros _. unfold main.emit, main.deferred.
  destruct (main.shutdown_phase env) as [o e]. reflexivity.
Qed.

Lemma In_emit o k (l : main.Out) : In l (fst k) -> In l (fst (main.emit o k)).
Proof. destruct k; simpl. intros H. apply in_or_app. now right. Qed.

Lemma In_deferred o k (l : main.Out) : In l (fst k) -> In l (fst (main.deferred o k)).
Proof. destruct k; simpl. intros H. apply in_or_app. now left. Qed.

Lemma run_started_log env l :
  main.started env = true ->
  In l (fst (main.shutdown_phase env)) -> In l (fst (main.run env)).
Proof.
  unfold main.started, main.run.
  destruct (main.conf_Parse env); try discriminate.
  destruct (main.conf_String env) as [out [e|]]; try discriminate.
  destruct (main.ioutil_ReadFile env); try discriminate.
  destruct (main.ParseRSAPrivateKeyFromPEM env); try discriminate.
  destruct (main.NewAuthenticator env); try discriminate.
  destruct (main.database_Open env); try discriminate.
  intros _ H.
  repeat first [apply In_emit | apply In_deferred]. exact H.
Qed.

(** ** Tokens *)

(** C1, as amended.  For every Authenticator whose key lookup returns the
    public half of its signing key, every Claims and every verification
    time inside the validity window of the Claims (not-before <= now <=
    expiry), verifying the token issued for the Claims succeeds and yields
    the original Claims: the same subject and the same roles. *)
Theorem C1_roundtrip_in_window :
  forall (a : auth.Authenticator) (now : Z) (c : Claims),
    auth.well_keyed a ->
    NotBefore c <= now -> now <= ExpiresAt c ->
    exists c', auth.ParseClaims a now (auth.GenerateToken a c) = inr c'
               /\ Subject c' = Subject c /\ Roles c' = Roles c.
Proof.
  intros a now c Hk Hnb Hexp. exists c.
  unfold auth.ParseClaims, auth.GenerateToken. simpl.
  rewrite Hk, check_sign. simpl.
  unfold auth.in_window.
  apply Z.leb_le in Hnb. apply Z.leb_le in Hexp.
  rewrite Hnb, Hexp. simpl. auto.
Qed.

Lemma C1_roundtrip_in_window_witness :
  exists c', auth.ParseClaims sample.authenticator 1200
               (auth.GenerateToken sample.authenticator sample.admin) = inr c'
             /\ Subject c' = Subject sample.admin /\ Roles c' = Roles sample.admin.
Proof.
  apply (C1_roundtrip_in_window sample.authenticator 1200 sample.admin).
  - reflexivity.
  - simpl. lia.
  - simpl. lia.
Defined.

(** C1 as stated fails: Claims whose expiry is after their issued-at do not
    verify once the expiry has passed, nor, at their own issued-at, before
    their not-before. *)
Lemma C1_counterexample :
  auth.well_keyed sample.authenticator
  /\ IssuedAt stale_claims < ExpiresAt stale_claims
  /\ auth.ParseClaims sample.authenticator 30
       (auth.GenerateToken sample.authenticator stale_claims) = inl auth.Expired
  /\ IssuedAt early_claims < ExpiresAt early_claims
  /\ auth.ParseClaims sample.authenticator (IssuedAt early_claims)
       (auth.GenerateToken sample.authenticator early_claims) = inl auth.Expired.
Proof. repeat split; vm_compute; reflexivity. Qed.

(** ** Shutdown *)

(** C2, as amended.  When run waits in its select, receives a termination
    signal and the graceful api.Shutdown returns an error, run logs that
    error and falls back to api.Close; it returns a non-nil error exactly
    when the signal is the integrity signal or the forced close fails too,
    and for any other signal it returns the result of the forced close,
    wrapped. *)
Theorem C2_shutdown_error_surfacing :
  forall (env : main.Env) (sig : Signal) (e : err),
    main.started env = true ->
    main.received env = main.Shutdown sig ->
    main.api_Shutdown env = Some e ->
    In (main.Log (Printf "main : Graceful shutdown did not complete in %v : %v"
                         [LA (FDuration (main.cfg_ShutdownTimeout env)); LErr e]))
       (fst (main.run env))
    /\ (snd (main.run env) <> None <-> sig = SIGSTOP \/ main.api_Close env <> None)
    /\ (sig <> SIGSTOP ->
        snd (main.run env) = Wrap (main.api_Close env) "could not stop server gracefully").
Proof.
  intros env sig e Hs Hr Hsh.
  split.
  - apply run_started_log; [exact Hs|].
    unfold main.shutdown_phase. rewrite Hr, Hsh.
    apply In_emit.
    destruct sig; destruct (main.api_Close env); simpl; auto.
  - rewrite (run_started env Hs).
    unfold main.shutdown_phase. rewrite Hr, Hsh.
    destruct sig; destruct (main.api_Close env) as [c|]; simpl;
      (split; [split; [intros H; try (left; reflexivity);
                       try (right; discriminate); try (exfalso; apply H; reflexivity)
                      | intros [H|H]; try discriminate; try congruence]
              | intros H; try reflexivity; try congruence]).
Qed.

Lemma C2_shutdown_error_surfacing_witness :
  snd (main.run (sample.env (main.Shutdown SIGINT) (Some (ErrNew "deadline"))
                            (Some (ErrNew "close failed")))) <> None.
Proof.
  apply (C2_shutdown_error_surfacing
           (sample.env (main.Shutdown SIGINT) (Some (ErrNew "deadline"))
                       (Some (ErrNew "close failed")))
           SIGINT (ErrNew "deadline") eq_refl eq_refl eq_refl).
  right. simpl. discriminate.
Defined.

(** C2 as stated fails: after SIGTERM, a graceful shutdown that fails and a
    forced close that succeeds, run returns nil. *)
Lemma C2_counterexample :
  main.started env_forced_close = true
  /\ main.received env_forced_close = main.Shutdown SIGTERM
  /\ main.api_Shutdown env_forced_close = Some (ErrNew "context deadline exceeded")
  /\ main.api_Close env_forced_close = None
  /\ snd (main.run env_forced_close) = None.
Proof. repeat split. Qed.

(** C7.  When run waits in its select and the shutdown channel delivers
    SIGSTOP, run returns the error "integrity issue caused shutdown",
    whatever api.Shutdown and api.Close return; for any other signal, when
    the server was closed without error (gracefully, or by the forced close
    after a failed graceful attempt), run returns nil. *)
Theorem C7_integrity_signal :
  forall (env : main.Env) (sig : Signal),
    main.started env = true ->
    main.received env = main.Shutdown sig ->
    (sig = SIGSTOP ->
       snd (main.run env) = Some (ErrNew "integrity issue caused shutdown"))
    /\ (sig <> SIGSTOP ->
        main.api_Shutdown env = None \/ main.api_Close env = None ->
        snd (main.run env) = None).
Proof.
  intros env sig Hs Hr.
  rewrite (run_started env Hs). unfold main.shutdown_phase. rewrite Hr.
  split.
  - intros ->. destruct (main.api_Shutdown env); destruct (main.api_Close env);
      reflexivity.
  - intros Hsig [H|H]; rewrite H.
    + destruct sig; try reflexivity. congruence.
    + destruct (main.api_Shutdown env); destruct sig; try reflexivity; congruence.
Qed.

Lemma C7_integrity_signal_witness :
  snd (main.run (sample.env (main.Shutdown SIGSTOP) None None))
  = Some (ErrNew "integrity issue caused shutdown")
  /\ snd (main.run (sample.env (main.Shutdown SIGTERM) None None)) = None.
Proof.
  split.
  - apply (C7_integrity_signal (sample.env (main.Shutdown SIGSTOP) None None)
             SIGSTOP eq_refl eq_refl). reflexivity.
  - apply (C7_integrity_signal (sample.env (main.Shutdown SIGTERM) None None)
             SIGTERM eq_refl eq_refl); [discriminate | left; reflexivity].
Defined.

(** ** The route table *)

(** C3.  The routes that handlers.API registers are, up to order, the
    routes of the spec's table with the requirement the table gives each:
    no middleware, Authenticate alone, or Authenticate followed by
    HasRole(ADMIN); no verb and path is registered twice, and the
    Authenticate middlewares all hold the Authenticator given to API. *)
Theorem C3_route_table :
  forall (build : string) (a : auth.Authenticator),
    Permutation (registered (handlers.API build a))
                (map (fun e => (fst (fst e), snd (fst e), Some (snd e)))
                     spec_route_table)
    /\ NoDup (map (fun e => fst e) (registered (handlers.API build a)))
    /\ Forall (fun rt => forall a', In (handlers.mid_Authenticate a')
                                      (web.rt_mw _ _ rt) -> a' = a)
              (web.app_routes _ _ (handlers.API build a)).
Proof.
  intros build a. split; [|split].
  - apply (permb_sound entry_dec). vm_compute. reflexivity.
  - cbn. repeat constructor; simpl; intuition discriminate.
  - cbn. repeat constructor; simpl; intros a' H;
      repeat (destruct H as [H|H]; [try discriminate; try (inversion H; reflexivity)|]);
      try contradiction.
Qed.

(** ** The Logger middleware *)

(** C4.  For every inner handler, context, request and world: when the
    context carries no Values, the handler made by mid.Logger returns the
    shutdown error "web value missing from context" and leaves the world as
    it was but for its own span, whatever the inner handler is, which it
    does not run; when the context carries Values and the inner handler
    returns [e], an error or nil, it appends exactly one line to the log,
    made of the trace id, the status recorded by then, the method, the
    path, the remote address and the time elapsed since the start, and
    returns [e] unchanged. *)
Theorem C4_Logger_contract :
  forall (before : Handler) (ctx : Ctx) (r : Request) (params : Params) (w : World),
    (ctx_values ctx = None ->
       mid.Logger before ctx r params w
       = (Ret (Some (ErrShutdown "web value missing from context")),
          with_spans (fun l => l ++ span "internal.mid.Logger" []) w)
       /\ web.IsShutdown (ErrShutdown "web value missing from context") = true)
    /\ (forall (p : nat) (e : error) (w' : World),
          ctx_values ctx = Some p ->
          before (Logger_ctx ctx) r params
                 (with_spans (fun l => l ++ [SpanStart "internal.mid.Logger"]) w)
          = (Ret e, w') ->
          exists w'',
            mid.Logger before ctx r params w = (Ret e, w'')
            /\ w_log w'' =
               w_log w' ++
               [Logger_line (TraceID (nth p (w_heap w') zero_Values))
                            (StatusCode (nth p (w_heap w') zero_Values))
                            (Method r) (URL_Path r) (RemoteAddr r)
                            (w_clock w' - Now (nth p (w_heap w') zero_Values))]
            /\ w_db w'' = w_db w' /\ w_heap w'' = w_heap w'
            /\ w_resp w'' = w_resp w').
Proof.
  intros before ctx r params w. split.
  - intros Hv. split; [|reflexivity].
    unfold mid.Logger, with_span, defer. rewrite Hv. simpl.
    unfold with_spans. simpl. rewrite <- app_assoc. reflexivity.
  - intros p e w' Hv Hb.
    unfold mid.Logger, with_span, defer. rewrite Hv.
    unfold bind. unfold Logger_ctx in Hb. rewrite Hv in Hb. cbn. rewrite Hb. cbn.
    eexists. split; [reflexivity|]. simpl. auto.
Qed.

Lemma C4_Logger_contract_witness :
  exists w'',
    mid.Logger (fun _ _ _ => ret (Some ErrNotFound)) sample.ctx0
               (sample.request "GET" ["v1"; "restaurant"] None None) []
               sample.world1
    = (Ret (Some ErrNotFound), w'')
    /\ w_log w'' =
       [Logger_line "trace-1" 0 "GET" "/v1/restaurant" "192.0.2.1:4711" 0].
Proof.
  destruct (C4_Logger_contract (fun _ _ _ => ret (Some ErrNotFound)) sample.ctx0
              (sample.request "GET" ["v1"; "restaurant"] None None) []
              sample.world1) as [_ H].
  destruct (H 0%nat (Some ErrNotFound) _ eq_refl eq_refl) as [w'' [H1 [H2 _]]].
  exists w''. split; [exact H1 | exact H2].
Defined.

(** ** package restaurant *)

Lemma filter_write_select j q :
  is_write q = false -> filter is_write (j ++ [q]) = filter is_write j.
Proof. intros H. rewrite filter_app. simpl. rewrite H. apply app_nil_r. Qed.

(** C9.  Let the restaurant that Update reads exist: the id parses, the
    SELECT is served, and [r] is the row found.  If the caller lacks the
    ADMIN role and is not the owner of [r], Update returns ErrForbidden,
    sends no writing statement and leaves the tables as they were.  If the
    caller has the ADMIN role, whoever owns [r], and the UPDATE is served,
    Update returns nil and the stored restaurant carries the new name and
    address, where given, and the new update date. *)
Theorem C9_update_authorization {L : Libs} :
  forall (ctx : Ctx) (user : Claims) (id : string) (update : UpdateRestaurant)
         (now : Z) (w : World) (r : Restaurant),
    uuid_Parse id = true ->
    hd None (db_faults (w_db w)) = None ->
    find (fun x => String.eqb (r_ID x) id) (db_restaurant (w_db w)) = Some r ->
    (auth.HasRole user RoleAdmin = false ->
     r_OwnerUserID r <> Subject user ->
       exists w',
         restaurant.Update ctx user id update now w = (Ret (Some ErrForbidden), w')
         /\ db_restaurant (w_db w') = db_restaurant (w_db w)
         /\ db_menu (w_db w') = db_menu (w_db w)
         /\ writes (w_db w') = writes (w_db w))
    /\ (auth.HasRole user RoleAdmin = true ->
        hd None (tl (db_faults (w_db w))) = None ->
          exists w',
            restaurant.Update ctx user id update now w = (Ret None, w')
            /\ db_restaurant (w_db w') =
               map (fun x =>
                      if String.eqb (r_ID x) id then
                        set_restaurant
                          (match up_Name update with Some n => n | None => r_Name r end)
                          (match up_Address update with
                           | Some a => a | None => r_Address r end)
                          now x
                      else x)
                   (db_restaurant (w_db w))).
Proof.
  intros ctx user id update now w r Hid Hf Hr.
  assert (Hsend : match db_faults (w_db w) with e :: _ => e | [] => None end = None).
  { destruct (db_faults (w_db w)); [reflexivity | exact Hf]. }
  split.
  - intros Hrole Hown.
    unfold restaurant.Update, restaurant.Retrieve, with_span, defer, bind, lift_db,
      db_GetRestaurant, send.
    simpl. rewrite Hid. simpl. rewrite Hsend. simpl. rewrite Hr. simpl.
    rewrite Hrole. simpl.
    destruct (String.eqb_spec (r_OwnerUserID r) (Subject user)) as [E|_];
      [contradiction|]. simpl.
    eexists. split; [reflexivity|]. simpl. repeat split.
    unfold writes. simpl. apply filter_write_select. reflexivity.
  - intros Hrole Hf2.
    assert (Hsend2 : match tl (db_faults (w_db w)) with e :: _ => e | [] => None end
                     = None).
    { destruct (tl (db_faults (w_db w))); [reflexivity | exact Hf2]. }
    unfold restaurant.Update, restaurant.Retrieve, with_span, defer, bind, lift_db,
      db_GetRestaurant, db_Exec, send.
    simpl. rewrite Hid. simpl. rewrite Hsend. simpl. rewrite Hr. simpl.
    rewrite Hrole. simpl. rewrite Hsend2. simpl.
    eexists. split; reflexivity.
Qed.

Lemma C9_update_authorization_witness :
  (exists w',
     @restaurant.Update sample.libs sample.ctx0 sample.admin sample.known_id
        (mkUpdateRestaurant (Some "Beta") None) 1300 sample.world1 = (Ret None, w')
     /\ db_restaurant (w_db w') =
        [mkRestaurant sample.known_id "Beta" "1 Main Street"
                      "45b5fbd3-755f-4379-8f07-a58d4a30fa2f" 900 1300])
  /\ (exists w',
        @restaurant.Update sample.libs sample.ctx0
           (mkClaims "someone-else" ["USER"] 1000 4600 0) sample.known_id
           (mkUpdateRestaurant (Some "Beta") None) 1300 sample.world1
        = (Ret (Some ErrForbidden), w')
        /\ db_restaurant (w_db w') = db_restaurant (w_db sample.world1)).
Proof.
  split.
  - destruct (@C9_update_authorization sample.libs sample.ctx0 sample.admin
                sample.known_id (mkUpdateRestaurant (Some "Beta") None) 1300
                sample.world1 sample.a_restaurant eq_refl eq_refl eq_refl)
      as [_ H].
    destruct (H eq_refl eq_refl) as [w' [H1 H2]].
    exists w'. split; [exact H1 | exact H2].
  - destruct (@C9_update_authorization sample.libs sample.ctx0
                (mkClaims "someone-else" ["USER"] 1000 4600 0)
                sample.known_id (mkUpdateRestaurant (Some "Beta") None) 1300
                sample.world1 sample.a_restaurant eq_refl eq_refl eq_refl)
      as [H _].
    destruct (H eq_refl) as [w' [H1 [H2 _]]]; [discriminate|].
    exists w'. split; [exact H1 | exact H2].
Defined.

(** ** Menu creation *)

(** C10, as amended.  Let a POST of a menu reach handlers.Menu.CreateMenu
    with Claims and Values in its context, a body that decodes to a NewMenu
    naming the restaurant of the path, and that restaurant read from the
    database.  If the subject of the Claims is not the owner of the
    restaurant, then, whatever the roles of the Claims, ADMIN included, the
    handler returns a request error of status 403, sends no writing
    statement, creates no menu and writes no response. *)
Theorem C10_menu_owner_restriction {L : Libs} :
  forall (ctx : Ctx) (r : Request) (params : Params) (w : World)
         (claims : Claims) (p : nat) (nm : NewMenu) (rest : Restaurant),
    ctx_claims ctx = Some claims ->
    ctx_values ctx = Some p ->
    web.Decode json_NewMenu validate_NewMenu r = inr nm ->
    nm_RestaurantID nm = param params "restaurantId" ->
    uuid_Parse (param params "restaurantId") = true ->
    hd None (db_faults (w_db w)) = None ->
    find (fun x => String.eqb (r_ID x) (param params "restaurantId"))
         (db_restaurant (w_db w)) = Some rest ->
    r_OwnerUserID rest <> Subject claims ->
    exists w',
      handlers.Menu_CreateMenu_handler ctx r params w
      = (Ret (Some (ErrWeb None StatusForbidden [])), w')
      /\ db_menu (w_db w') = db_menu (w_db w)
      /\ db_restaurant (w_db w') = db_restaurant (w_db w)
      /\ writes (w_db w') = writes (w_db w)
      /\ w_resp w' = w_resp w.
Proof.
  intros ctx r params w claims p nm rest Hc Hv Hd Hnm Hid Hf Hr Hown.
  assert (Hsend : match db_faults (w_db w) with e :: _ => e | [] => None end = None).
  { destruct (db_faults (w_db w)); [reflexivity | exact Hf]. }
  unfold handlers.Menu_CreateMenu_handler, with_span, defer.
  cbn. rewrite Hc, Hv, Hd. rewrite Hnm, String.eqb_refl. cbn.
  unfold restaurant.Retrieve, with_span, defer, bind, lift_db, db_GetRestaurant, send.
  cbn. rewrite Hid. cbn. rewrite Hsend. cbn. rewrite Hr. cbn.
  destruct (String.eqb_spec (r_OwnerUserID rest) (Subject claims)) as [E|_];
    [contradiction|]. cbn.
  eexists. split; [reflexivity|]. cbn. repeat split.
  unfold writes. cbn. apply filter_write_select. reflexivity.
Qed.

Lemma C10_menu_owner_restriction_witness :
  exists w',
    @handlers.Menu_CreateMenu_handler sample.libs admin_ctx
      (sample.request "POST" ["v1"; "restaurant"; sample.known_id; "menu"]
         (sample.bearer sample.admin)
         (Some (JObj [("restaurant_id", JStr sample.known_id);
                      ("menu", JStr "soup")])))
      [("restaurantId", sample.known_id)] sample.world1
    = (Ret (Some (ErrWeb None StatusForbidden [])), w')
    /\ db_menu (w_db w') = db_menu (w_db sample.world1).
Proof.
  destruct (@C10_menu_owner_restriction sample.libs admin_ctx
              (sample.request "POST" ["v1"; "restaurant"; sample.known_id; "menu"]
                 (sample.bearer sample.admin)
                 (Some (JObj [("restaurant_id", JStr sample.known_id);
                              ("menu", JStr "soup")])))
              [("restaurantId", sample.known_id)] sample.world1
              sample.admin 0%nat (mkNewMenu sample.known_id 0 "soup")
              sample.a_restaurant
              eq_refl eq_refl eq_refl eq_refl eq_refl eq_refl eq_refl)
    as [w' [H1 [H2 _]]]; [discriminate|].
  exists w'. split; [exact H1 | exact H2].
Defined.

(** C10 as stated fails: the administrator, who does not own the
    restaurant of the path, posts a menu whose document names another
    restaurant; the handler returns ErrInvalidID, not a request error of
    status 403. *)
Lemma C10_counterexample :
  ctx_claims admin_ctx = Some sample.admin
  /\ auth.HasRole sample.admin RoleAdmin = true
  /\ find (fun x => String.eqb (r_ID x) sample.known_id)
          (db_restaurant (w_db sample.world1)) = Some sample.a_restaurant
  /\ r_OwnerUserID sample.a_restaurant <> Subject sample.admin
  /\ fst (@handlers.Menu_CreateMenu_handler sample.libs admin_ctx post_menu_other_id
            [("restaurantId", sample.known_id)] sample.world1)
     = Ret (Some ErrInvalidID).
Proof. repeat split; try reflexivity. discriminate. Qed.

(** ** Requests through the whole stack *)

Ltac run_stack :=
  unfold handlers.ServeHTTP, web.ServeHTTP;
  cbn -[auth.ParseClaims];
  unfold mid.Logger, mid.Errors, mid.Metrics, mid.Panics, mid.Authenticate,
    with_span, defer, bind, time_Now, ret;
  cbn -[auth.ParseClaims].

(** C5, as amended.  For every id that does not parse as a UUID,
    restaurant.Retrieve returns ErrInvalidID and leaves the world as it was
    but for its span: no statement reaches the database.  A GET of
    /v1/restaurant/<id> with such an id that carries a bearer token valid
    at the time of the request is answered 400 with the body
    {"error":"ID is not in its proper form"}, the database untouched. *)
Theorem C5_malformed_id {L : Libs} {A : handlers.Absent} :
  forall (build : string) (a : auth.Authenticator) (id : string) (r : Request)
         (t : auth.Token) (claims : Claims) (w : World),
    uuid_Parse id = false ->
    Method r = "GET" ->
    Path r = ["v1"; "restaurant"; id] ->
    Authorization_hdr r = Some (Bearer t) ->
    auth.ParseClaims a (w_clock w) t = inr claims ->
    (forall ctx w0,
       restaurant.Retrieve ctx id w0
       = (Ret (None, Some ErrInvalidID),
          with_spans (fun l => l ++ span "internal.restaurant.Retrieve" []) w0))
    /\ exists w',
         handlers.ServeHTTP (handlers.API build a) r w = (Ret tt, w')
         /\ rw_status (w_resp w') = Some 400
         /\ rw_body (w_resp w') = malformed_id_body
         /\ w_db w' = w_db w.
Proof.
  intros build a id r t claims w Hid Hm Hp Ha Hv.
  split.
  - intros ctx w0. unfold restaurant.Retrieve, with_span, defer.
    rewrite Hid. cbn. unfold with_spans. cbn. rewrite <- app_assoc. reflexivity.
  - destruct r as [m p au b ra]. cbn in Hm, Hp, Ha. subst m p au.
    run_stack. rewrite Hv. cbn.
    unfold handlers.Restaurant_Retrieve_handler, restaurant.Retrieve,
      with_span, defer, bind, ret.
    cbn. rewrite Hid. cbn.
    eexists. split; [reflexivity|]. cbn. auto.
Qed.

Lemma C5_malformed_id_witness :
  exists w',
    @handlers.ServeHTTP sample.libs sample.absent sample.app
      (sample.request "GET" ["v1"; "restaurant"; "12345"]
                      (sample.bearer sample.user) None)
      sample.world = (Ret tt, w')
    /\ rw_status (w_resp w') = Some 400
    /\ rw_body (w_resp w') = malformed_id_body.
Proof.
  destruct (@C5_malformed_id sample.libs sample.absent main.build
              sample.authenticator "12345"
              (sample.request "GET" ["v1"; "restaurant"; "12345"]
                              (sample.bearer sample.user) None)
              (auth.GenerateToken sample.authenticator sample.user)
              sample.user sample.world
              eq_refl eq_refl eq_refl eq_refl eq_refl)
    as [_ [w' [H1 [H2 [H3 _]]]]].
  exists w'. split; [exact H1 | split; [exact H2 | exact H3]].
Defined.

(** C5 as stated fails: the same GET without an Authorization header is
    answered 401. *)
Lemma C5_counterexample :
  sample.uuid_Parse "12345" = false
  /\ Method get_malformed_unauthenticated = "GET"
  /\ Path get_malformed_unauthenticated = ["v1"; "restaurant"; "12345"]
  /\ rw_status (w_resp (snd (@handlers.ServeHTTP sample.libs sample.absent sample.app
                               get_malformed_unauthenticated sample.world)))
     = Some 401.
Proof. repeat split. Qed.

(** C6.  A POST of /v1/restaurant that carries a bearer token valid at the
    time of the request and the body {} is answered 400; the body of the
    answer is the JSON text of an ErrorResponse whose error is "field
    validation error" and whose fields are, in some order, an entry for
    name and an entry for address, each saying that the field is required.
    The database is untouched. *)
Theorem C6_validation_error {L : Libs} {A : handlers.Absent} :
  forall (build : string) (a : auth.Authenticator) (r : Request)
         (t : auth.Token) (claims : Claims) (w : World),
    Method r = "POST" ->
    Path r = ["v1"; "restaurant"] ->
    Authorization_hdr r = Some (Bearer t) ->
    auth.ParseClaims a (w_clock w) t = inr claims ->
    Body r = Some (JObj []) ->
    exists w' fields,
      handlers.ServeHTTP (handlers.API build a) r w = (Ret tt, w')
      /\ rw_status (w_resp w') = Some 400
      /\ rw_body (w_resp w')
         = web.json_ErrorResponse (mkErrorResponse "field validation error" fields)
      /\ Permutation fields
           [mkFieldError "name" "name is a required field";
            mkFieldError "address" "address is a required field"]
      /\ w_db w' = w_db w.
Proof.
  intros build a r t claims w Hm Hp Ha Hv Hb.
  destruct r as [m p au b ra]. cbn in Hm, Hp, Ha, Hb. subst m p au b.
  run_stack. rewrite Hv. cbn.
  eexists.
  exists [mkFieldError "name" "name is a required field";
          mkFieldError "address" "address is a required field"].
  split; [reflexivity|]. cbn.
  split; [reflexivity|]. split; [reflexivity|].
  split; [apply Permutation_refl | reflexivity].
Qed.

Lemma C6_validation_error_witness :
  exists w' fields,
    @handlers.ServeHTTP sample.libs sample.absent sample.app
      (sample.request "POST" ["v1"; "restaurant"] (sample.bearer sample.user)
                      (Some (JObj [])))
      sample.world = (Ret tt, w')
    /\ rw_status (w_resp w') = Some 400
    /\ rw_body (w_resp w')
       = web.json_ErrorResponse (mkErrorResponse "field validation error" fields)
    /\ Permutation fields
         [mkFieldError "name" "name is a required field";
          mkFieldError "address" "address is a required field"].
Proof.
  destruct (@C6_validation_error sample.libs sample.absent main.build
              sample.authenticator
              (sample.request "POST" ["v1"; "restaurant"] (sample.bearer sample.user)
                              (Some (JObj [])))
              (auth.GenerateToken sample.authenticator sample.user)
              sample.user sample.world
              eq_refl eq_refl eq_refl eq_refl eq_refl)
    as [w' [fields [H1 [H2 [H3 [H4 _]]]]]].
  exists w', fields. repeat split; assumption.
Defined.

(** C8, as amended.  For every id that parses as a UUID, when the DELETE
    statement is served restaurant.Delete returns nil, whether or not a
    restaurant with that id exists, and no row with that id remains; in no
    case does it return the not-found error.  Hence a DELETE of
    /v1/restaurant/<id> with such an id, known or not, that carries a
    bearer token valid at the time of the request is answered 204 with an
    empty body. *)
Theorem C8_delete_idempotent {L : Libs} {A : handlers.Absent} :
  forall (build : string) (a : auth.Authenticator) (id : string) (w : World),
    uuid_Parse id = true ->
    hd None (db_faults (w_db w)) = None ->
    (forall ctx, exists w1,
       restaurant.Delete ctx id w = (Ret None, w1)
       /\ db_restaurant (w_db w1)
          = filter (fun x => negb (String.eqb (r_ID x) id)) (db_restaurant (w_db w)))
    /\ (forall ctx id' w0, fst (restaurant.Delete ctx id' w0) <> Ret (Some ErrNotFound))
    /\ (forall (r : Request) (t : auth.Token) (claims : Claims),
          Method r = "DELETE" ->
          Path r = ["v1"; "restaurant"; id] ->
          Authorization_hdr r = Some (Bearer t) ->
          auth.ParseClaims a (w_clock w) t = inr claims ->
          exists w',
            handlers.ServeHTTP (handlers.API build a) r w = (Ret tt, w')
            /\ rw_status (w_resp w') = Some 204
            /\ rw_body (w_resp w') = "").
Proof.
  intros build a id w Hid Hf.
  assert (Hsend : match db_faults (w_db w) with e :: _ => e | [] => None end = None).
  { destruct (db_faults (w_db w)); [reflexivity | exact Hf]. }
  split; [|split].
  - intros ctx. unfold restaurant.Delete, with_span, defer, bind, lift_db, db_Exec, send.
    rewrite Hid. cbn. rewrite Hsend. cbn.
    eexists. split; reflexivity.
  - intros ctx id' w0.
    unfold restaurant.Delete, with_span, defer, bind, lift_db, db_Exec, send.
    destruct (uuid_Parse id'); cbn; [|discriminate].
    destruct (db_faults (w_db w0)) as [|[e|] fs]; cbn; discriminate.
  - intros r t claims Hm Hp Ha Hv.
    destruct r as [m p au b ra]. cbn in Hm, Hp, Ha. subst m p au.
    run_stack. rewrite Hv. cbn.
    unfold handlers.Restaurant_Delete_handler, restaurant.Delete,
      with_span, defer, bind, ret, lift_db, db_Exec, send.
    cbn. rewrite Hid. cbn. rewrite Hsend. cbn.
    eexists. split; [reflexivity|]. cbn. auto.
Qed.

Lemma C8_delete_idempotent_witness :
  exists w',
    @handlers.ServeHTTP sample.libs sample.absent sample.app
      (sample.request "DELETE" ["v1"; "restaurant"; sample.unknown_id]
                      (sample.bearer sample.user) None)
      sample.world = (Ret tt, w')
    /\ rw_status (w_resp w') = Some 204
    /\ rw_body (w_resp w') = "".
Proof.
  destruct (@C8_delete_idempotent sample.libs sample.absent main.build
              sample.authenticator sample.unknown_id sample.world
              eq_refl eq_refl) as [_ [_ H]].
  apply (H (sample.request "DELETE" ["v1"; "restaurant"; sample.unknown_id]
                           (sample.bearer sample.user) None)
           (auth.GenerateToken sample.authenticator sample.user) sample.user
           eq_refl eq_refl eq_refl eq_refl).
Defined.

(** C8 as stated fails: the DELETE of a well-formed, unknown id without an
    Authorization header is answered 401. *)
Lemma C8_counterexample :
  sample.uuid_Parse sample.unknown_id = true
  /\ find (fun x => String.eqb (r_ID x) sample.unknown_id)
          (db_restaurant (w_db sample.world)) = None
  /\ Method delete_unknown_unauthenticated = "DELETE"
  /\ Path delete_unknown_unauthenticated = ["v1"; "restaurant"; sample.unknown_id]
  /\ rw_status (w_resp (snd (@handlers.ServeHTTP sample.libs sample.absent sample.app
                               delete_unknown_unauthenticated sample.world)))
     = Some 401.
Proof. repeat split. Qed.

(** * Further properties *)

(** ** Helper lemmas *)

Lemma fault_head (l : list error) :
  match l with [] => None | e :: _ => e end = nth 0 l None.
Proof. destruct l; reflexivity. Qed.

Lemma nth_tl (n : nat) (l : list error) : nth n (tl l) None = nth (S n) l None.
Proof. destruct l; [destruct n|]; reflexivity. Qed.

Lemma find_app_last {T} (f : T -> bool) (l : list T) (x : T) :
  find f l = None -> f x = true -> find f (l ++ [x]) = Some x.
Proof.
  induction l as [|y t IH]; simpl; intros Hn Hx.
  - now rewrite Hx.
  - destruct (f y); [discriminate | auto].
Qed.

Lemma find_deleted (id : string) (l : list Restaurant) :
  find (same_id id) (filter (fun r => negb (String.eqb (r_ID r) id)) l) = None.
Proof.
  induction l as [|y t IH]; simpl; [reflexivity|].
  destruct (String.eqb (r_ID y) id) eqn:E; simpl; [exact IH|].
  unfold same_id at 1. rewrite E. exact IH.
Qed.

Lemma filter_twice {T} (f : T -> bool) (l : list T) :
  filter f (filter f l) = filter f l.
Proof.
  induction l as [|y t IH]; simpl; [reflexivity|].
  destruct (f y) eqn:E; simpl; [rewrite E, IH|]; auto.
Qed.

Lemma find_updated (id name address : string) (updated : Z) (l : list Restaurant) :
  find (same_id id)
       (map (fun x => if String.eqb (r_ID x) id
                      then set_restaurant name address updated x else x) l)
  = option_map (set_restaurant name address updated) (find (same_id id) l).
Proof.
  induction l as [|y t IH]; simpl; [reflexivity|].
  unfold same_id at 1 3.
  destruct (String.eqb (r_ID y) id) eqn:E; simpl; rewrite E; [reflexivity | exact IH].
Qed.

Lemma map_updated {T} (g : Restaurant -> T) (id name address : string) (updated : Z)
    (l : list Restaurant) :
  (forall x, g (set_restaurant name address updated x) = g x) ->
  map g (map (fun x => if String.eqb (r_ID x) id
                       then set_restaurant name address updated x else x) l)
  = map g l.
Proof.
  intros Hg. rewrite map_map. apply map_ext. intros x.
  destruct (String.eqb (r_ID x) id); [apply Hg | reflexivity].
Qed.

Create HintDb gopkg.
#[local] Hint Unfold restaurant.List restaurant.Create restaurant.Retrieve
  restaurant.Update restaurant.Delete restaurant.CreateMenu restaurant.MenuRetrieve
  restaurant.MenuUpdate with_span defer bind ret lift_db modify load store
  db_GetRestaurant db_GetMenu db_SelectRestaurants db_Exec send uuid_New
  world_after result_of served : gopkg.

Ltac go := autounfold with gopkg in *; cbn in *.
Ltac faults := rewrite ?fault_head, ?nth_tl in *.

(** ** package restaurant *)

(** X1.  Create never touches the rows that exist: the table it leaves is the
    table it found followed by at most one row, and that row is owned by
    the subject of the caller's Claims and dated [now] twice. *)
Theorem Create_appends_at_most_one :
  forall (ctx : Ctx) (user : Claims) (nr : NewRestaurant) (now : Z) (w : World),
    exists added,
      db_restaurant (w_db (world_after (restaurant.Create ctx user nr now) w))
      = db_restaurant (w_db w) ++ added
      /\ (length added <= 1)%nat
      /\ Forall (fun r => r_OwnerUserID r = Subject user
                          /\ r_Name r = nr_Name nr /\ r_Address r = nr_Address nr
                          /\ r_DateCreated r = now /\ r_DateUpdated r = now)
                added
      /\ db_menu (w_db (world_after (restaurant.Create ctx user nr now) w))
         = db_menu (w_db w).
Proof.
  intros ctx user nr now w. go.
  destruct (db_faults (w_db w)) as [|[e|] fs]; cbn.
  - eexists. split; [reflexivity|]. cbn. repeat constructor.
  - exists []. rewrite app_nil_r. repeat constructor.
  - eexists. split; [reflexivity|]. cbn. repeat constructor.
Qed.

(** X2.  Create followed by Retrieve of the id it drew gives back the restaurant
    created, provided the id drawn is a UUID that no stored row carries and
    both statements are served. *)
Theorem Create_then_Retrieve {L : Libs} :
  forall (ctx ctx' : Ctx) (user : Claims) (nr : NewRestaurant) (now : Z) (w : World),
    uuid_Parse (w_random w (w_drawn w)) = true ->
    find (same_id (w_random w (w_drawn w))) (db_restaurant (w_db w)) = None ->
    served 0 w -> served 1 w ->
    exists r w1,
      restaurant.Create ctx user nr now w = (Ret (Some r, None), w1)
      /\ r = mkRestaurant (w_random w (w_drawn w)) (nr_Name nr) (nr_Address nr)
                          (Subject user) now now
      /\ result_of (restaurant.Retrieve ctx' (r_ID r)) w1 = Ret (Some r, None).
Proof.
  intros ctx ctx' user nr now w Hid Hnew H0 H1. go. faults.
  rewrite H0. cbn. eexists. eexists. split; [reflexivity|]. split; [reflexivity|].
  cbn. rewrite Hid. cbn. faults. rewrite H1. cbn.
  fold (same_id (w_random w (w_drawn w))).
  rewrite (find_app_last _ _ _ Hnew); [reflexivity|].
  unfold same_id. cbn. apply String.eqb_refl.
Qed.

Lemma Create_then_Retrieve_witness :
  exists r w1,
    restaurant.Create sample.ctx0 sample.admin
       (mkNewRestaurant "Gamma" "3 Side Street") 1300 sample.world1
    = (Ret (Some r, None), w1)
    /\ r = mkRestaurant "0a1b2c3d-0000-4000-8000-000000000000" "Gamma" "3 Side Street"
                        (Subject sample.admin) 1300 1300
    /\ result_of (@restaurant.Retrieve sample.libs sample.ctx0 (r_ID r)) w1
       = Ret (Some r, None).
Proof.
  apply (@Create_then_Retrieve sample.libs sample.ctx0 sample.ctx0 sample.admin
           (mkNewRestaurant "Gamma" "3 Side Street") 1300 sample.world1);
    reflexivity.
Defined.

(** X3.  Retrieve only reads: whatever the id and the driver do, it leaves both
    tables and the response as they were, sends no writing statement, and
    sends no statement at all when the id does not parse. *)
Theorem Retrieve_read_only {L : Libs} :
  forall (ctx : Ctx) (id : string) (w : World),
    db_restaurant (w_db (world_after (restaurant.Retrieve ctx id) w))
    = db_restaurant (w_db w)
    /\ db_menu (w_db (world_after (restaurant.Retrieve ctx id) w)) = db_menu (w_db w)
    /\ writes (w_db (world_after (restaurant.Retrieve ctx id) w)) = writes (w_db w)
    /\ w_resp (world_after (restaurant.Retrieve ctx id) w) = w_resp w
    /\ db_journal (w_db (world_after (restaurant.Retrieve ctx id) w))
       = if uuid_Parse id then db_journal (w_db w) ++ [qSelectRestaurant id]
         else db_journal (w_db w).
Proof.
  intros ctx id w. go.
  destruct (uuid_Parse id); cbn; [|auto].
  destruct (db_faults (w_db w)) as [|[e|] fs]; cbn;
    try destruct e; cbn;
    try destruct (find _ _); cbn;
    unfold writes; cbn; rewrite ?filter_write_select; auto.
Qed.

(** X4.  Retrieve of a well-formed id: no such row is ErrNotFound; a driver
    failure other than sql.ErrNoRows is that failure wrapped with
    "selecting single restaurant"; in both cases no restaurant is
    returned. *)
Theorem Retrieve_failures {L : Libs} :
  forall (ctx : Ctx) (id : string) (w : World),
    uuid_Parse id = true ->
    (served 0 w -> find (same_id id) (db_restaurant (w_db w)) = None ->
       result_of (restaurant.Retrieve ctx id) w = Ret (None, Some ErrNotFound))
    /\ (forall e, nth 0 (db_faults (w_db w)) None = Some e -> e <> ErrNoRows ->
          result_of (restaurant.Retrieve ctx id) w
          = Ret (None, Some (ErrWrap e "selecting single restaurant" []))).
Proof.
  intros ctx id w Hid. split.
  - intros H0 Hn. go. rewrite Hid. cbn. faults. rewrite H0. cbn.
    fold (same_id id). rewrite Hn. reflexivity.
  - intros e He Hne. go. rewrite Hid. cbn. faults. rewrite He. cbn.
    destruct e; try reflexivity. congruence.
Qed.

Lemma Retrieve_failures_witness :
  result_of (@restaurant.Retrieve sample.libs sample.ctx0 sample.unknown_id)
            sample.world1 = Ret (None, Some ErrNotFound)
  /\ result_of (@restaurant.Retrieve sample.libs sample.ctx0 sample.known_id)
               (broken_world (ErrNew "connection reset"))
     = Ret (None, Some (ErrWrap (ErrNew "connection reset")
                                "selecting single restaurant" [])).
Proof.
  split.
  - apply (@Retrieve_failures sample.libs sample.ctx0 sample.unknown_id
             sample.world1); reflexivity.
  - apply (@Retrieve_failures sample.libs sample.ctx0 sample.known_id
             (broken_world (ErrNew "connection reset")) eq_refl);
      [reflexivity | discriminate].
Defined.

(** X5.  After a Delete that the driver served, Retrieve of the same id finds
    nothing: it returns ErrNotFound. *)
Theorem Delete_then_Retrieve {L : Libs} :
  forall (ctx ctx' : Ctx) (id : string) (w : World),
    uuid_Parse id = true -> served 0 w -> served 1 w ->
    exists w1,
      restaurant.Delete ctx id w = (Ret None, w1)
      /\ result_of (restaurant.Retrieve ctx' id) w1 = Ret (None, Some ErrNotFound).
Proof.
  intros ctx ctx' id w Hid H0 H1. go. rewrite Hid. cbn. faults. rewrite H0. cbn.
  eexists. split; [reflexivity|]. cbn. faults. rewrite H1. cbn.
  fold (same_id id). rewrite find_deleted. reflexivity.
Qed.

Lemma Delete_then_Retrieve_witness :
  exists w1,
    @restaurant.Delete sample.libs sample.ctx0 sample.known_id sample.world1
    = (Ret None, w1)
    /\ result_of (@restaurant.Retrieve sample.libs sample.ctx0 sample.known_id) w1
       = Ret (None, Some ErrNotFound).
Proof.
  apply (@Delete_then_Retrieve sample.libs sample.ctx0 sample.ctx0 sample.known_id
           sample.world1); reflexivity.
Defined.

(** X6.  Deleting the same id twice leaves the tables the first Delete left, and
    the second Delete returns nil too; rows with another id stay, in their
    order. *)
Theorem Delete_twice {L : Libs} :
  forall (ctx ctx' : Ctx) (id : string) (w : World),
    uuid_Parse id = true -> served 0 w -> served 1 w ->
    exists w1 w2,
      restaurant.Delete ctx id w = (Ret None, w1)
      /\ restaurant.Delete ctx' id w1 = (Ret None, w2)
      /\ db_restaurant (w_db w2) = db_restaurant (w_db w1)
      /\ db_menu (w_db w2) = db_menu (w_db w)
      /\ filter (fun r => negb (same_id id r)) (db_restaurant (w_db w2))
         = filter (fun r => negb (same_id id r)) (db_restaurant (w_db w)).
Proof.
  intros ctx ctx' id w Hid H0 H1. go. rewrite Hid. cbn. faults. rewrite H0. cbn.
  eexists. eexists. split; [reflexivity|]. cbn. faults. rewrite H1. cbn.
  split; [reflexivity|]. cbn.
  unfold same_id. rewrite !filter_twice. auto.
Qed.

Lemma Delete_twice_witness :
  exists w1 w2,
    @restaurant.Delete sample.libs sample.ctx0 sample.known_id sample.world1
    = (Ret None, w1)
    /\ @restaurant.Delete sample.libs sample.ctx0 sample.known_id w1 = (Ret None, w2)
    /\ db_restaurant (w_db w2) = db_restaurant (w_db w1).
Proof.
  destruct (@Delete_twice sample.libs sample.ctx0 sample.ctx0 sample.known_id
              sample.world1 eq_refl eq_refl eq_refl) as [w1 [w2 [A [B [C _]]]]].
  exists w1, w2. auto.
Defined.

(** X7.  Delete when it does not succeed.  An id that does not parse is
    ErrInvalidID and no statement is sent; a statement the driver fails
    with [e] is [e] wrapped with "deleting restaurant <id>"; in both cases
    the tables are as they were. *)
Theorem Delete_failures {L : Libs} :
  forall (ctx : Ctx) (id : string) (w : World),
    (uuid_Parse id = false ->
       result_of (restaurant.Delete ctx id) w = Ret (Some ErrInvalidID)
       /\ w_db (world_after (restaurant.Delete ctx id) w) = w_db w)
    /\ (forall e, uuid_Parse id = true ->
          nth 0 (db_faults (w_db w)) None = Some e ->
          result_of (restaurant.Delete ctx id) w
          = Ret (Some (ErrWrap e "deleting restaurant %s" [FStr id]))
          /\ db_restaurant (w_db (world_after (restaurant.Delete ctx id) w))
             = db_restaurant (w_db w)
          /\ db_menu (w_db (world_after (restaurant.Delete ctx id) w))
             = db_menu (w_db w)).
Proof.
  intros ctx id w. split.
  - intros Hid. go. rewrite Hid. cbn. split; [reflexivity|].
    destruct (w_db w); reflexivity.
  - intros e Hid He. go. rewrite Hid. cbn. faults. rewrite He. cbn. auto.
Qed.

Lemma Delete_failures_witness :
  result_of (@restaurant.Delete sample.libs sample.ctx0 "12345") sample.world1
  = Ret (Some ErrInvalidID)
  /\ result_of (@restaurant.Delete sample.libs sample.ctx0 sample.known_id)
               (broken_world (ErrNew "connection reset"))
     = Ret (Some (ErrWrap (ErrNew "connection reset") "deleting restaurant %s"
                          [FStr sample.known_id])).
Proof.
  split.
  - apply (@Delete_failures sample.libs sample.ctx0 "12345" sample.world1).
    reflexivity.
  - apply (@Delete_failures sample.libs sample.ctx0 sample.known_id
             (broken_world (ErrNew "connection reset"))); reflexivity.
Defined.

(** X8.  Update of a restaurant that cannot be read: an id that does not parse
    is ErrInvalidID, an id without a row is ErrNotFound, whatever the roles
    of the caller; no writing statement is sent and the tables are as they
    were. *)
Theorem Update_unreadable {L : Libs} :
  forall (ctx : Ctx) (user : Claims) (id : string) (update : UpdateRestaurant)
         (now : Z) (w : World),
    (uuid_Parse id = false ->
       result_of (restaurant.Update ctx user id update now) w
       = Ret (Some ErrInvalidID)
       /\ w_db (world_after (restaurant.Update ctx user id update now) w) = w_db w)
    /\ (uuid_Parse id = true -> served 0 w ->
        find (same_id id) (db_restaurant (w_db w)) = None ->
        result_of (restaurant.Update ctx user id update now) w
        = Ret (Some ErrNotFound)
        /\ db_restaurant (w_db (world_after (restaurant.Update ctx user id update now) w))
           = db_restaurant (w_db w)
        /\ writes (w_db (world_after (restaurant.Update ctx user id update now) w))
           = writes (w_db w)).
Proof.
  intros ctx user id update now w. split.
  - intros Hid. go. rewrite Hid. cbn. split; [reflexivity|].
    destruct (w_db w); reflexivity.
  - intros Hid H0 Hn. go. rewrite Hid. cbn. faults. rewrite H0. cbn.
    fold (same_id id). rewrite Hn. cbn. repeat split.
    unfold writes. cbn. apply filter_write_select. reflexivity.
Qed.

Lemma Update_unreadable_witness :
  result_of (@restaurant.Update sample.libs sample.ctx0 sample.admin "12345"
               (mkUpdateRestaurant (Some "Beta") None) 1300) sample.world1
  = Ret (Some ErrInvalidID)
  /\ result_of (@restaurant.Update sample.libs sample.ctx0 sample.admin
                  sample.unknown_id (mkUpdateRestaurant (Some "Beta") None) 1300)
               sample.world1
     = Ret (Some ErrNotFound).
Proof.
  split.
  - apply (@Update_unreadable sample.libs sample.ctx0 sample.admin "12345"
             (mkUpdateRestaurant (Some "Beta") None) 1300 sample.world1).
    reflexivity.
  - apply (@Update_unreadable sample.libs sample.ctx0 sample.admin sample.unknown_id
             (mkUpdateRestaurant (Some "Beta") None) 1300 sample.world1);
      reflexivity.
Defined.

(** X9.  Whatever Update is given and however it ends, it adds and removes no
    row and changes no id, no owner and no creation date; the menus are as
    they were. *)
Theorem Update_keeps_identity {L : Libs} :
  forall (ctx : Ctx) (user : Claims) (id : string) (update : UpdateRestaurant)
         (now : Z) (w : World),
    map r_ID (db_restaurant (w_db (world_after (restaurant.Update ctx user id update now) w)))
    = map r_ID (db_restaurant (w_db w))
    /\ map r_OwnerUserID
           (db_restaurant (w_db (world_after (restaurant.Update ctx user id update now) w)))
       = map r_OwnerUserID (db_restaurant (w_db w))
    /\ map r_DateCreated
           (db_restaurant (w_db (world_after (restaurant.Update ctx user id update now) w)))
       = map r_DateCreated (db_restaurant (w_db w))
    /\ db_menu (w_db (world_after (restaurant.Update ctx user id update now) w))
       = db_menu (w_db w).
Proof.
  intros ctx user id update now w. go.
  destruct (uuid_Parse id); cbn; [|auto].
  destruct (db_faults (w_db w)) as [|[e|] fs]; cbn;
    try (destruct e; cbn; auto; fail);
    (destruct (find _ (db_restaurant (w_db w))) as [r|]; cbn; [|auto]);
    (destruct (negb (auth.HasRole user RoleAdmin)
               && negb (String.eqb (r_OwnerUserID r) (Subject user))); cbn; [auto|]);
    try (destruct fs as [|[e|] fs']; cbn);
    rewrite ?map_updated by reflexivity; auto.
Qed.

(** X10.  The owner of a restaurant, without the ADMIN role, updates it: Update
    returns nil, and a Retrieve that follows returns the row with the name
    and address given, the old ones where none is given, the same owner and
    creation date, and [now] as the date of update. *)
Theorem Update_by_owner_then_Retrieve {L : Libs} :
  forall (ctx ctx' : Ctx) (user : Claims) (id : string) (update : UpdateRestaurant)
         (now : Z) (w : World) (r : Restaurant),
    uuid_Parse id = true ->
    served 0 w -> served 1 w -> served 2 w ->
    find (same_id id) (db_restaurant (w_db w)) = Some r ->
    r_OwnerUserID r = Subject user ->
    exists w1,
      restaurant.Update ctx user id update now w = (Ret None, w1)
      /\ result_of (restaurant.Retrieve ctx' id) w1
         = Ret (Some (mkRestaurant
                        (r_ID r)
                        (match up_Name update with Some n => n | None => r_Name r end)
                        (match up_Address update with
                         | Some a => a | None => r_Address r end)
                        (r_OwnerUserID r) (r_DateCreated r) now),
                None).
Proof.
  intros ctx ctx' user id update now w r Hid H0 H1 H2 Hr Hown. go.
  rewrite Hid. cbn. faults. rewrite H0. cbn.
  fold (same_id id). rewrite Hr. cbn.
  rewrite Hown, String.eqb_refl, andb_false_r. cbn. faults. rewrite H1. cbn.
  eexists. split; [reflexivity|]. cbn. faults. rewrite H2. cbn.
  fold (same_id id). rewrite find_updated, Hr. cbn.
  unfold set_restaurant. rewrite ?Hown. reflexivity.
Qed.

Lemma Update_by_owner_then_Retrieve_witness :
  exists w1,
    @restaurant.Update sample.libs sample.ctx0 sample.user sample.known_id
       (mkUpdateRestaurant None (Some "2 Main Street")) 1300 sample.world1
    = (Ret None, w1)
    /\ result_of (@restaurant.Retrieve sample.libs sample.ctx0 sample.known_id) w1
       = Ret (Some (mkRestaurant sample.known_id "Alpha" "2 Main Street"
                                 (Subject sample.user) 900 1300), None).
Proof.
  apply (@Update_by_owner_then_Retrieve sample.libs sample.ctx0 sample.ctx0
           sample.user sample.known_id
           (mkUpdateRestaurant None (Some "2 Main Street")) 1300 sample.world1
           sample.a_restaurant); reflexivity.
Defined.



(** ** Menus *)

Lemma find_menu_updated (id menu : string) (date : Z) (l : list Menu) :
  find (menu_id id)
       (map (fun m => if String.eqb (m_ID m) id then set_menu menu date m else m) l)
  = option_map (set_menu menu date) (find (menu_id id) l).
Proof.
  induction l as [|y t IH]; simpl; [reflexivity|].
  unfold menu_id at 1 3.
  destruct (String.eqb (m_ID y) id) eqn:E; simpl; rewrite E; [reflexivity | exact IH].
Qed.

(** X12.  CreateMenu followed by MenuRetrieve of the id it drew gives back the
    menu created: the restaurant id and the text of the NewMenu, [now] as
    its date, whatever date the NewMenu carries, and no votes; provided the
    id drawn is a UUID that no stored menu carries and both statements are
    served. *)
Theorem CreateMenu_then_MenuRetrieve {L : Libs} :
  forall (ctx ctx' : Ctx) (user : Claims) (nm : NewMenu) (now : Z) (w : World),
    uuid_Parse (w_random w (w_drawn w)) = true ->
    find (menu_id (w_random w (w_drawn w))) (db_menu (w_db w)) = None ->
    served 0 w -> served 1 w ->
    exists m w1,
      restaurant.CreateMenu ctx user nm now w = (Ret (Some m, None), w1)
      /\ m = mkMenu (w_random w (w_drawn w)) (nm_RestaurantID nm) now (nm_Menu nm) 0
      /\ result_of (restaurant.MenuRetrieve ctx' (m_ID m)) w1 = Ret (Some m, None).
Proof.
  intros ctx ctx' user nm now w Hid Hnew H0 H1. go. faults.
  rewrite H0. cbn. eexists. eexists. split; [reflexivity|]. split; [reflexivity|].
  cbn. rewrite Hid. cbn. faults. rewrite H1. cbn.
  fold (menu_id (w_random w (w_drawn w))).
  rewrite (find_app_last _ _ _ Hnew); [reflexivity|].
  unfold menu_id. cbn. apply String.eqb_refl.
Qed.

Lemma CreateMenu_then_MenuRetrieve_witness :
  exists m w1,
    restaurant.CreateMenu sample.ctx0 sample.user
      (mkNewMenu sample.known_id 7777 "stew") 1300 menu_world
    = (Ret (Some m, None), w1)
    /\ m = mkMenu "0a1b2c3d-0000-4000-8000-000000000000" sample.known_id 1300 "stew" 0
    /\ result_of (@restaurant.MenuRetrieve sample.libs sample.ctx0 (m_ID m)) w1
       = Ret (Some m, None).
Proof.
  apply (@CreateMenu_then_MenuRetrieve sample.libs sample.ctx0 sample.ctx0 sample.user
           (mkNewMenu sample.known_id 7777 "stew") 1300 menu_world);
    reflexivity.
Defined.

(** X13.  Menu.RetrieveMenu and Menu.RetrieveVotes look the path's restaurantId up
    among the ids of the menus: when no menu carries that id as its own,
    they return a request error 404 that wraps ErrNotFound and write no
    response, whichever menus belong to that restaurant. *)
Theorem RetrieveMenu_looks_up_menu_id {L : Libs} :
  forall (ctx : Ctx) (r : Request) (params : Params) (w : World),
    uuid_Parse (param params "restaurantId") = true ->
    served 0 w ->
    find (menu_id (param params "restaurantId")) (db_menu (w_db w)) = None ->
    result_of (handlers.Menu_RetrieveMenu_handler ctx r params) w
    = Ret (Some (ErrWeb (Some ErrNotFound) StatusNotFound []))
    /\ result_of (handlers.Menu_RetrieveVotes_handler ctx r params) w
       = Ret (Some (ErrWeb (Some ErrNotFound) StatusNotFound []))
    /\ w_resp (world_after (handlers.Menu_RetrieveMenu_handler ctx r params) w)
       = w_resp w.
Proof.
  intros ctx r params w Hid H0 Hn.
  unfold handlers.Menu_RetrieveMenu_handler, handlers.Menu_RetrieveVotes_handler,
    handlers.Menu_Retrieve_body.
  go. rewrite Hid. cbn. faults. rewrite H0. cbn.
  fold (menu_id (param params "restaurantId")). rewrite Hn. cbn. auto.
Qed.

Lemma RetrieveMenu_looks_up_menu_id_witness :
  m_RestaurantID a_menu = sample.known_id
  /\ result_of (@handlers.Menu_RetrieveMenu_handler sample.libs sample.ctx0
                  (sample.request "GET" ["v1"; "restaurant"; sample.known_id; "menu"]
                                  (sample.bearer sample.user) None)
                  [("restaurantId", sample.known_id)]) menu_world
     = Ret (Some (ErrWeb (Some ErrNotFound) StatusNotFound [])).
Proof.
  split; [reflexivity|].
  apply (@RetrieveMenu_looks_up_menu_id sample.libs sample.ctx0
           (sample.request "GET" ["v1"; "restaurant"; sample.known_id; "menu"]
                           (sample.bearer sample.user) None)
           [("restaurantId", sample.known_id)] menu_world);
    reflexivity.
Defined.

(** X14.  MenuUpdate has no way around the owner check: a caller who is not the
    owner of the restaurant gets ErrForbidden whatever the roles of the
    Claims, ADMIN included; the menu is not read, no writing statement is
    sent and the tables are as they were. *)
Theorem MenuUpdate_owner_only {L : Libs} :
  forall (ctx : Ctx) (user : Claims) (restaurantId : string) (update : UpdateMenu)
         (now : Z) (w : World) (r : Restaurant),
    uuid_Parse restaurantId = true ->
    served 0 w ->
    find (same_id restaurantId) (db_restaurant (w_db w)) = Some r ->
    r_OwnerUserID r <> Subject user ->
    result_of (restaurant.MenuUpdate ctx user restaurantId update now) w
    = Ret (Some ErrForbidden)
    /\ db_journal (w_db (world_after (restaurant.MenuUpdate ctx user restaurantId
                                                            update now) w))
       = db_journal (w_db w) ++ [qSelectRestaurant restaurantId]
    /\ db_menu (w_db (world_after (restaurant.MenuUpdate ctx user restaurantId
                                                         update now) w))
       = db_menu (w_db w)
    /\ db_restaurant (w_db (world_after (restaurant.MenuUpdate ctx user restaurantId
                                                               update now) w))
       = db_restaurant (w_db w).
Proof.
  intros ctx user restaurantId update now w r Hid H0 Hr Hown. go.
  rewrite Hid. cbn. faults. rewrite H0. cbn.
  fold (same_id restaurantId). rewrite Hr. cbn.
  destruct (String.eqb_spec (r_OwnerUserID r) (Subject user)) as [E|_];
    [contradiction|]. cbn. auto.
Qed.

Lemma MenuUpdate_owner_only_witness :
  auth.HasRole sample.admin RoleAdmin = true
  /\ result_of (@restaurant.MenuUpdate sample.libs sample.ctx0 sample.admin
                  sample.known_id (mkUpdateMenu (m_ID a_menu) "stew" 1250) 1300)
               menu_world
     = Ret (Some ErrForbidden).
Proof.
  split; [reflexivity|].
  apply (@MenuUpdate_owner_only sample.libs sample.ctx0 sample.admin sample.known_id
           (mkUpdateMenu (m_ID a_menu) "stew" 1250) 1300 menu_world
           sample.a_restaurant); [reflexivity | reflexivity | reflexivity | discriminate].
Defined.

(** X15.  The owner updates a menu: MenuUpdate returns nil, and a MenuRetrieve
    that follows returns the menu with the text and the date of the
    UpdateMenu, also when that text is empty, and with its id, restaurant
    and votes as before. *)
Theorem MenuUpdate_then_MenuRetrieve {L : Libs} :
  forall (ctx ctx' : Ctx) (user : Claims) (restaurantId : string)
         (update : UpdateMenu) (now : Z) (w : World) (r : Restaurant) (m : Menu),
    uuid_Parse restaurantId = true ->
    uuid_Parse (um_ID update) = true ->
    served 0 w -> served 1 w -> served 2 w -> served 3 w ->
    find (same_id restaurantId) (db_restaurant (w_db w)) = Some r ->
    r_OwnerUserID r = Subject user ->
    find (menu_id (um_ID update)) (db_menu (w_db w)) = Some m ->
    exists w1,
      restaurant.MenuUpdate ctx user restaurantId update now w = (Ret None, w1)
      /\ result_of (restaurant.MenuRetrieve ctx' (um_ID update)) w1
         = Ret (Some (mkMenu (m_ID m) (m_RestaurantID m) (um_Date update)
                             (um_Menu update) (m_Votes m)), None).
Proof.
  intros ctx ctx' user restaurantId update now w r m Hid Hid' H0 H1 H2 H3 Hr Hown Hm.
  go. rewrite Hid. cbn. faults. rewrite H0. cbn.
  fold (same_id restaurantId). rewrite Hr. cbn.
  rewrite Hown, String.eqb_refl. cbn. rewrite Hid'. cbn. faults. rewrite H1. cbn.
  fold (menu_id (um_ID update)). rewrite Hm. cbn. faults. rewrite H2. cbn.
  eexists. split; [reflexivity|]. cbn. faults. rewrite H3. cbn.
  fold (menu_id (um_ID update)). rewrite find_menu_updated, Hm. reflexivity.
Qed.

Lemma MenuUpdate_then_MenuRetrieve_witness :
  exists w1,
    @restaurant.MenuUpdate sample.libs sample.ctx0 sample.user sample.known_id
       (mkUpdateMenu (m_ID a_menu) "" 1250) 1300 menu_world
    = (Ret None, w1)
    /\ result_of (@restaurant.MenuRetrieve sample.libs sample.ctx0 (m_ID a_menu)) w1
       = Ret (Some (mkMenu (m_ID a_menu) sample.known_id 1250 "" 3), None).
Proof.
  apply (@MenuUpdate_then_MenuRetrieve sample.libs sample.ctx0 sample.ctx0
           sample.user sample.known_id (mkUpdateMenu (m_ID a_menu) "" 1250) 1300
           menu_world sample.a_restaurant a_menu); reflexivity.
Defined.

(** ** Handlers *)

(** X16.  The handlers that read the Claims of the context (Restaurant.Create,
    Restaurant.Update, Menu.CreateMenu and Menu.Update) return the shutdown
    error "claims missing from context" when the context carries none,
    before they look at the body or at the database: the world they leave
    is the world they found with their own span opened and closed. *)
Theorem handlers_without_claims {L : Libs} :
  forall (ju : JSON -> option UpdateMenu) (vu : UpdateMenu -> list FieldError)
         (ctx : Ctx) (r : Request) (params : Params) (w : World),
    ctx_claims ctx = None ->
    handlers.Restaurant_Create_handler ctx r params w
    = (Ret (Some (ErrShutdown "claims missing from context")),
       with_spans (fun l => l ++ span "handlers.Restaurant.Create" []) w)
    /\ handlers.Restaurant_Update_handler ctx r params w
       = (Ret (Some (ErrShutdown "claims missing from context")),
          with_spans (fun l => l ++ span "handlers.Restaurant.Update" []) w)
    /\ handlers.Menu_CreateMenu_handler ctx r params w
       = (Ret (Some (ErrShutdown "claims missing from context")),
          with_spans (fun l => l ++ span "handlers.Menu.CreateMenu" []) w)
    /\ handlers.Menu_Update_handler ju vu ctx r params w
       = (Ret (Some (ErrShutdown "claims missing from context")),
          with_spans (fun l => l ++ span "handlers.Menu.Update" []) w).
Proof.
  intros ju vu ctx r params w Hc.
  unfold handlers.Restaurant_Create_handler, handlers.Restaurant_Update_handler,
    handlers.Menu_CreateMenu_handler, handlers.Menu_Update_handler,
    with_span, defer.
  cbn. rewrite Hc. cbn. unfold with_spans. cbn. rewrite <- !app_assoc. auto.
Qed.

Lemma handlers_without_claims_witness :
  @handlers.Restaurant_Create_handler sample.libs sample.ctx0
     (sample.request "POST" ["v1"; "restaurant"] None (Some (JObj []))) []
     sample.world1
  = (Ret (Some (ErrShutdown "claims missing from context")),
     with_spans (fun l => l ++ span "handlers.Restaurant.Create" []) sample.world1).
Proof.
  apply (@handlers_without_claims sample.libs (fun _ => None) (fun _ => [])
           sample.ctx0
           (sample.request "POST" ["v1"; "restaurant"] None (Some (JObj []))) []
           sample.world1 eq_refl).
Defined.

(** X17.  Restaurant.Retrieve on a well-formed id: no such row is a request error
    404 that wraps ErrNotFound; a driver failure other than sql.ErrNoRows
    stays an unclassified error, wrapped twice, whose cause is the driver's
    own error; neither case writes a response. *)
Theorem Retrieve_handler_failures {L : Libs} :
  forall (ctx : Ctx) (r : Request) (params : Params) (w : World),
    uuid_Parse (param params "id") = true ->
    (served 0 w ->
     find (same_id (param params "id")) (db_restaurant (w_db w)) = None ->
       result_of (handlers.Restaurant_Retrieve_handler ctx r params) w
       = Ret (Some (ErrWeb (Some ErrNotFound) StatusNotFound []))
       /\ w_resp (world_after (handlers.Restaurant_Retrieve_handler ctx r params) w)
          = w_resp w)
    /\ (forall e, nth 0 (db_faults (w_db w)) None = Some e -> e <> ErrNoRows ->
          result_of (handlers.Restaurant_Retrieve_handler ctx r params) w
          = Ret (Some (ErrWrap (ErrWrap e "selecting single restaurant" [])
                               "ID: %s" [FStr (param params "id")]))
          /\ w_resp (world_after (handlers.Restaurant_Retrieve_handler ctx r params) w)
             = w_resp w).
Proof.
  intros ctx r params w Hid. unfold handlers.Restaurant_Retrieve_handler. split.
  - intros H0 Hn. go. rewrite Hid. cbn. faults. rewrite H0. cbn.
    fold (same_id (param params "id")). rewrite Hn. cbn. auto.
  - intros e He Hne. go. rewrite Hid. cbn. faults. rewrite He. cbn.
    destruct e; cbn; auto. congruence.
Qed.

Lemma Retrieve_handler_failures_witness :
  result_of (@handlers.Restaurant_Retrieve_handler sample.libs sample.ctx0
               (sample.request "GET" ["v1"; "restaurant"; sample.unknown_id]
                               (sample.bearer sample.user) None)
               [("id", sample.unknown_id)]) sample.world1
  = Ret (Some (ErrWeb (Some ErrNotFound) StatusNotFound [])).
Proof.
  apply (@Retrieve_handler_failures sample.libs sample.ctx0
           (sample.request "GET" ["v1"; "restaurant"; sample.unknown_id]
                           (sample.bearer sample.user) None)
           [("id", sample.unknown_id)] sample.world1 eq_refl); reflexivity.
Defined.

(** X18.  Restaurant.Update turns the three sentinels of restaurant.Update into
    request errors that wrap them: a malformed id into 400, a missing row
    into 404, a caller who is neither owner nor ADMIN into 403.  None of
    them writes a response or changes a table. *)
Theorem Update_handler_request_errors {L : Libs} :
  forall (ctx : Ctx) (r : Request) (params : Params) (w : World)
         (claims : Claims) (p : nat) (up : UpdateRestaurant),
    ctx_claims ctx = Some claims ->
    ctx_values ctx = Some p ->
    web.Decode json_UpdateRestaurant validate_UpdateRestaurant r = inr up ->
    (uuid_Parse (param params "id") = false ->
       result_of (handlers.Restaurant_Update_handler ctx r params) w
       = Ret (Some (ErrWeb (Some ErrInvalidID) StatusBadRequest [])))
    /\ (uuid_Parse (param params "id") = true -> served 0 w ->
        find (same_id (param params "id")) (db_restaurant (w_db w)) = None ->
        result_of (handlers.Restaurant_Update_handler ctx r params) w
        = Ret (Some (ErrWeb (Some ErrNotFound) StatusNotFound [])))
    /\ (forall rest,
          uuid_Parse (param params "id") = true -> served 0 w ->
          find (same_id (param params "id")) (db_restaurant (w_db w)) = Some rest ->
          auth.HasRole claims RoleAdmin = false ->
          r_OwnerUserID rest <> Subject claims ->
          result_of (handlers.Restaurant_Update_handler ctx r params) w
          = Ret (Some (ErrWeb (Some ErrForbidden) StatusForbidden []))
          /\ w_resp (world_after (handlers.Restaurant_Update_handler ctx r params) w)
             = w_resp w
          /\ db_restaurant
               (w_db (world_after (handlers.Restaurant_Update_handler ctx r params) w))
             = db_restaurant (w_db w)).
Proof.
  intros ctx r params w claims p up Hc Hv Hd.
  unfold handlers.Restaurant_Update_handler. split; [|split].
  - intros Hid. go. rewrite Hc, Hv, Hd. cbn. rewrite Hid. reflexivity.
  - intros Hid H0 Hn. go. rewrite Hc, Hv, Hd. cbn. rewrite Hid. cbn.
    faults. rewrite H0. cbn.
    fold (same_id (param params "id")). rewrite Hn. reflexivity.
  - intros rest Hid H0 Hr Hrole Hown. go. rewrite Hc, Hv, Hd. cbn. rewrite Hid. cbn.
    faults. rewrite H0. cbn.
    fold (same_id (param params "id")). rewrite Hr. cbn. rewrite Hrole. cbn.
    destruct (String.eqb_spec (r_OwnerUserID rest) (Subject claims)) as [E|_];
      [contradiction|]. cbn. auto.
Qed.

Lemma Update_handler_request_errors_witness :
  result_of (@handlers.Restaurant_Update_handler sample.libs
               (ctx_WithClaims (mkClaims "someone-else" ["USER"] 1000 4600 0)
                               sample.ctx0)
               (sample.request "PUT" ["v1"; "restaurant"; sample.known_id] None
                               (Some (JObj [("name", JStr "Beta")])))
               [("id", sample.known_id)]) sample.world1
  = Ret (Some (ErrWeb (Some ErrForbidden) StatusForbidden [])).
Proof.
  destruct (@Update_handler_request_errors sample.libs
              (ctx_WithClaims (mkClaims "someone-else" ["USER"] 1000 4600 0)
                              sample.ctx0)
              (sample.request "PUT" ["v1"; "restaurant"; sample.known_id] None
                              (Some (JObj [("name", JStr "Beta")])))
              [("id", sample.known_id)] sample.world1
              (mkClaims "someone-else" ["USER"] 1000 4600 0) 0%nat
              (mkUpdateRestaurant (Some "Beta") None) eq_refl eq_refl eq_refl)
    as [_ [_ H]].
  destruct (H sample.a_restaurant eq_refl eq_refl eq_refl eq_refl) as [H1 _];
    [discriminate | exact H1].
Defined.

(** X19.  Restaurant.Delete: a malformed id is a request error 400 that wraps
    ErrInvalidID, and nothing is sent to the database; a statement the
    driver fails stays an unclassified error whose cause is the driver's
    own error; neither case writes a response. *)
Theorem Delete_handler_failures {L : Libs} :
  forall (ctx : Ctx) (r : Request) (params : Params) (w : World),
    (uuid_Parse (param params "id") = false ->
       result_of (handlers.Restaurant_Delete_handler ctx r params) w
       = Ret (Some (ErrWeb (Some ErrInvalidID) StatusBadRequest []))
       /\ w_db (world_after (handlers.Restaurant_Delete_handler ctx r params) w)
          = w_db w
       /\ w_resp (world_after (handlers.Restaurant_Delete_handler ctx r params) w)
          = w_resp w)
    /\ (forall e, uuid_Parse (param params "id") = true ->
          nth 0 (db_faults (w_db w)) None = Some e ->
          (exists e', result_of (handlers.Restaurant_Delete_handler ctx r params) w
                      = Ret (Some e')
                      /\ Cause e' = Cause e
                      /\ (forall c st fs, e' <> ErrWeb c st fs))
          /\ w_resp (world_after (handlers.Restaurant_Delete_handler ctx r params) w)
             = w_resp w).
Proof.
  intros ctx r params w. unfold handlers.Restaurant_Delete_handler. split.
  - intros Hid. go. rewrite Hid. cbn. repeat split.
  - intros e Hid He. go. rewrite Hid. cbn. faults. rewrite He. cbn.
    split; [|reflexivity].
    eexists. split; [reflexivity|]. split; [reflexivity | discriminate].
Qed.

Lemma Delete_handler_failures_witness :
  result_of (@handlers.Restaurant_Delete_handler sample.libs sample.ctx0
               (sample.request "DELETE" ["v1"; "restaurant"; "12345"] None None)
               [("id", "12345")]) sample.world1
  = Ret (Some (ErrWeb (Some ErrInvalidID) StatusBadRequest [])).
Proof.
  apply (@Delete_handler_failures sample.libs sample.ctx0
           (sample.request "DELETE" ["v1"; "restaurant"; "12345"] None None)
           [("id", "12345")] sample.world1). reflexivity.
Defined.

(** X20.  Menu.CreateMenu compares the restaurant id of the decoded document
    with the restaurantId of the path before it reads anything: when they
    differ it returns ErrInvalidID itself, not a request error, sends
    nothing to the database and writes no response. *)
Theorem CreateMenu_handler_id_mismatch {L : Libs} :
  forall (ctx : Ctx) (r : Request) (params : Params) (w : World)
         (claims : Claims) (p : nat) (nm : NewMenu),
    ctx_claims ctx = Some claims ->
    ctx_values ctx = Some p ->
    web.Decode json_NewMenu validate_NewMenu r = inr nm ->
    nm_RestaurantID nm <> param params "restaurantId" ->
    result_of (handlers.Menu_CreateMenu_handler ctx r params) w
    = Ret (Some ErrInvalidID)
    /\ w_db (world_after (handlers.Menu_CreateMenu_handler ctx r params) w) = w_db w
    /\ w_resp (world_after (handlers.Menu_CreateMenu_handler ctx r params) w)
       = w_resp w.
Proof.
  intros ctx r params w claims p nm Hc Hv Hd Hne.
  unfold handlers.Menu_CreateMenu_handler. go. rewrite Hc, Hv, Hd.
  destruct (String.eqb_spec (nm_RestaurantID nm) (param params "restaurantId"))
    as [E|_]; [contradiction|]. cbn. auto.
Qed.

Lemma CreateMenu_handler_id_mismatch_witness :
  result_of (@handlers.Menu_CreateMenu_handler sample.libs owner_ctx
               post_menu_other_id [("restaurantId", sample.known_id)]) sample.world1
  = Ret (Some ErrInvalidID).
Proof.
  apply (@CreateMenu_handler_id_mismatch sample.libs owner_ctx
           post_menu_other_id [("restaurantId", sample.known_id)] sample.world1
           sample.user 0%nat (mkNewMenu sample.unknown_id 0 "soup") eq_refl eq_refl);
    [reflexivity | discriminate].
Defined.

(** X22.  Restaurant.Create stores what the document says under the caller's
    name: when the INSERT is served the table gains exactly one row, with
    the name and address decoded from the body, the subject of the Claims
    as its owner, and the start time of the request as both of its dates;
    when the driver fails the INSERT the handler returns an unclassified
    error whose cause is the driver's own, writes no response and adds no
    row. *)
Theorem Create_handler_outcomes {L : Libs} :
  forall (ctx : Ctx) (r : Request) (params : Params) (w : World)
         (claims : Claims) (p : nat) (nr : NewRestaurant),
    ctx_claims ctx = Some claims ->
    ctx_values ctx = Some p ->
    web.Decode web.json_NewRestaurant web.validate_NewRestaurant r = inr nr ->
    (served 0 w ->
       db_restaurant (w_db (world_after (handlers.Restaurant_Create_handler ctx r params) w))
       = db_restaurant (w_db w)
         ++ [mkRestaurant (w_random w (w_drawn w)) (nr_Name nr) (nr_Address nr)
                          (Subject claims)
                          (Now (nth p (w_heap w) zero_Values))
                          (Now (nth p (w_heap w) zero_Values))])
    /\ (forall e, nth 0 (db_faults (w_db w)) None = Some e ->
          (exists e', result_of (handlers.Restaurant_Create_handler ctx r params) w
                      = Ret (Some e')
                      /\ Cause e' = Cause e
                      /\ (forall c st fs, e' <> ErrWeb c st fs))
          /\ db_restaurant
               (w_db (world_after (handlers.Restaurant_Create_handler ctx r params) w))
             = db_restaurant (w_db w)
          /\ w_resp (world_after (handlers.Restaurant_Create_handler ctx r params) w)
             = w_resp w).
Proof.
  intros ctx r params w claims p nr Hc Hv Hd.
  unfold handlers.Restaurant_Create_handler, web.Respond. split.
  - intros H0. go. rewrite Hc, Hv, Hd. cbn. faults. rewrite H0. cbn. reflexivity.
  - intros e He. go. rewrite Hc, Hv, Hd. cbn. faults. rewrite He. cbn.
    split; [|auto].
    eexists. split; [reflexivity|]. split; [reflexivity | discriminate].
Qed.

Lemma Create_handler_outcomes_witness :
  db_restaurant (w_db (world_after
     (@handlers.Restaurant_Create_handler sample.libs owner_ctx
        (sample.request "POST" ["v1"; "restaurant"] (sample.bearer sample.user)
           (Some (JObj [("name", JStr "Gamma"); ("address", JStr "3 Side Street")])))
        []) sample.world1))
  = [sample.a_restaurant;
     mkRestaurant "0a1b2c3d-0000-4000-8000-000000000000" "Gamma" "3 Side Street"
                  (Subject sample.user) 1200 1200].
Proof.
  apply (@Create_handler_outcomes sample.libs owner_ctx
           (sample.request "POST" ["v1"; "restaurant"] (sample.bearer sample.user)
              (Some (JObj [("name", JStr "Gamma"); ("address", JStr "3 Side Street")])))
           [] sample.world1 sample.user 0%nat
           (mkNewRestaurant "Gamma" "3 Side Street") eq_refl eq_refl eq_refl).
  reflexivity.
Defined.

(** X21.  The owner posts a menu for the own restaurant: Menu.CreateMenu adds
    exactly one menu, with the restaurant id and the text of the document,
    no votes, and as its date the start time in the Context Values, not the
    date of the document; the restaurants are as they were. *)
Theorem CreateMenu_handler_by_owner {L : Libs} :
  forall (ctx : Ctx) (r : Request) (params : Params) (w : World)
         (claims : Claims) (p : nat) (nm : NewMenu) (rest : Restaurant),
    ctx_claims ctx = Some claims ->
    ctx_values ctx = Some p ->
    web.Decode json_NewMenu validate_NewMenu r = inr nm ->
    nm_RestaurantID nm = param params "restaurantId" ->
    uuid_Parse (param params "restaurantId") = true ->
    served 0 w -> served 1 w ->
    find (same_id (param params "restaurantId")) (db_restaurant (w_db w)) = Some rest ->
    r_OwnerUserID rest = Subject claims ->
    db_menu (w_db (world_after (handlers.Menu_CreateMenu_handler ctx r params) w))
    = db_menu (w_db w)
      ++ [mkMenu (w_random w (w_drawn w)) (nm_RestaurantID nm)
                 (Now (nth p (w_heap w) zero_Values)) (nm_Menu nm) 0]
    /\ db_restaurant
         (w_db (world_after (handlers.Menu_CreateMenu_handler ctx r params) w))
       = db_restaurant (w_db w).
Proof.
  intros ctx r params w claims p nm rest Hc Hv Hd Hnm Hid H0 H1 Hr Hown.
  unfold handlers.Menu_CreateMenu_handler, web.Respond. go.
  rewrite Hc, Hv, Hd. rewrite Hnm, String.eqb_refl. cbn.
  rewrite Hid. cbn. faults. rewrite H0. cbn.
  fold (same_id (param params "restaurantId")). rewrite Hr. cbn.
  rewrite Hown, String.eqb_refl. cbn. faults. rewrite H1. cbn. auto.
Qed.

Lemma CreateMenu_handler_by_owner_witness :
  db_menu (w_db (world_after
     (@handlers.Menu_CreateMenu_handler sample.libs owner_ctx
        (sample.request "POST" ["v1"; "restaurant"; sample.known_id; "menu"]
           (sample.bearer sample.user)
           (Some (JObj [("restaurant_id", JStr sample.known_id);
                        ("menu", JStr "stew"); ("date", JNum 7777)])))
        [("restaurantId", sample.known_id)]) menu_world))
  = [a_menu;
     mkMenu "0a1b2c3d-0000-4000-8000-000000000000" sample.known_id 1200 "stew" 0].
Proof.
  apply (@CreateMenu_handler_by_owner sample.libs owner_ctx
           (sample.request "POST" ["v1"; "restaurant"; sample.known_id; "menu"]
              (sample.bearer sample.user)
              (Some (JObj [("restaurant_id", JStr sample.known_id);
                           ("menu", JStr "stew"); ("date", JNum 7777)])))
           [("restaurantId", sample.known_id)] menu_world
           sample.user 0%nat (mkNewMenu sample.known_id 7777 "stew")
           sample.a_restaurant); reflexivity.
Defined.

(** X23.  Menu.Update never writes a response: whatever the context, the request
    and the database, the response writer is as it was when the handler
    returns, also when restaurant.MenuUpdate has succeeded. *)
Theorem Menu_Update_handler_writes_no_response {L : Libs} :
  forall (ju : JSON -> option UpdateMenu) (vu : UpdateMenu -> list FieldError)
         (ctx : Ctx) (r : Request) (params : Params) (w : World),
    w_resp (world_after (handlers.Menu_Update_handler ju vu ctx r params) w)
    = w_resp w.
Proof.
  intros ju vu ctx r params w.
  unfold handlers.Menu_Update_handler. go.
  destruct (ctx_claims ctx) as [c|]; cbn; [|reflexivity].
  destruct (ctx_values ctx); cbn; [|reflexivity].
  destruct (web.Decode ju vu r) as [e|up]; cbn; [reflexivity|].
  destruct (uuid_Parse (param params "restaurantId")); cbn; [|reflexivity].
  destruct (db_faults (w_db w)) as [|[e|] fs]; cbn;
    try (destruct e; reflexivity);
    (destruct (find _ (db_restaurant (w_db w))) as [rest|]; cbn; [|reflexivity]);
    (destruct (negb (String.eqb (r_OwnerUserID rest) (Subject c))); cbn;
       [reflexivity|]);
    (destruct (uuid_Parse (um_ID up)); cbn; [|reflexivity]);
    try (destruct fs as [|[e|] fs']; cbn);
    try (destruct e; reflexivity);
    (destruct (find _ (db_menu (w_db w))) as [m|]; cbn; [|reflexivity]);
    try (destruct fs' as [|[e|] fs'']; cbn);
    try (destruct e; reflexivity);
    reflexivity.
Qed.

(** ** The Logger middleware *)

(** X24.  When the inner handler panics, the handler made by mid.Logger panics
    with the same reason: it writes no line, and its deferred span.End
    still runs. *)
Theorem Logger_passes_panic :
  forall (before : Handler) (ctx : Ctx) (r : Request) (params : Params)
         (w w' : World) (p : nat) (reason : string),
    ctx_values ctx = Some p ->
    before (Logger_ctx ctx) r params
           (with_spans (fun l => l ++ [SpanStart "internal.mid.Logger"]) w)
    = (Fault reason, w') ->
    mid.Logger before ctx r params w
    = (Fault reason,
       with_spans (fun l => l ++ [SpanEnd "internal.mid.Logger"]) w').
Proof.
  intros before ctx r params w w' p reason Hv Hb.
  unfold mid.Logger, with_span, defer, bind. unfold Logger_ctx in Hb.
  rewrite Hv in *. cbn. rewrite Hb. reflexivity.
Qed.

Lemma Logger_passes_panic_witness :
  w_log (world_after
           (mid.Logger (fun _ _ _ w => (Fault "index out of range", w)) sample.ctx0
              (sample.request "GET" ["v1"; "restaurant"] None None) [])
           sample.world1) = [].
Proof.
  unfold world_after.
  rewrite (Logger_passes_panic (fun _ _ _ w => (Fault "index out of range", w))
             sample.ctx0 (sample.request "GET" ["v1"; "restaurant"] None None) []
             sample.world1 _ 0%nat "index out of range" eq_refl eq_refl).
  reflexivity.
Defined.

(** ** package main *)

Lemma shutdown_phase_nil env :
  snd (main.shutdown_phase env) = None <->
  main.received env = main.ServerError None
  \/ exists sig, main.received env = main.Shutdown sig /\ sig <> SIGSTOP
                 /\ (main.api_Shutdown env = None \/ main.api_Close env = None).
Proof.
  unfold main.shutdown_phase.
  destruct (main.received env) as [[e|]|sig]; cbn.
  - split; [discriminate | intros [H|[s [H _]]]; discriminate].
  - split; auto.
  - destruct (main.api_Shutdown env) as [e|], (main.api_Close env) as [c|], sig; cbn;
      (split;
       [ intros H;
         first [ discriminate
               | right; eexists; repeat split;
                 first [reflexivity | discriminate | auto] ]
       | intros [H|[s [H [Hs H']]]]; [discriminate|];
         inversion H; subst;
         destruct H';
         first [reflexivity | discriminate | congruence] ]).
Qed.

(** X25.  run returns nil in two situations only: help was asked for and the
    usage text could be produced; or the start-up succeeded and then either
    the server stopped without an error, or a signal other than SIGSTOP
    arrived and the server was closed without error, gracefully or by the
    forced close.  Every failed start-up step makes run return an error. *)
Theorem run_returns_nil_iff :
  forall (env : main.Env),
    snd (main.run env) = None <->
    (main.conf_Parse env = main.ErrHelpWanted /\ snd (main.conf_Usage env) = None)
    \/ (main.started env = true
        /\ (main.received env = main.ServerError None
            \/ exists sig, main.received env = main.Shutdown sig /\ sig <> SIGSTOP
                           /\ (main.api_Shutdown env = None
                               \/ main.api_Close env = None))).
Proof.
  intros env. rewrite <- shutdown_phase_nil.
  destruct (main.started env) eqn:Hs.
  - rewrite (run_started env Hs). split; [auto|].
    intros [[Hp _]|[_ H]]; [|exact H].
    unfold main.started in Hs. rewrite Hp in Hs. discriminate.
  - unfold main.started in Hs. unfold main.run.
    destruct (main.conf_Parse env).
    + destruct (main.conf_String env) as [out [e|]]; cbn.
      { split; [discriminate | intros [[H _]|[H _]]; discriminate]. }
      destruct (main.ioutil_ReadFile env); cbn;
        [split; [discriminate | intros [[H _]|[H _]]; discriminate]|].
      destruct (main.ParseRSAPrivateKeyFromPEM env); cbn;
        [split; [discriminate | intros [[H _]|[H _]]; discriminate]|].
      destruct (main.NewAuthenticator env); cbn;
        [split; [discriminate | intros [[H _]|[H _]]; discriminate]|].
      destruct (main.database_Open env); cbn;
        [split; [discriminate | intros [[H _]|[H _]]; discriminate]|].
      discriminate.
    + destruct (main.conf_Usage env) as [u [e|]]; cbn.
      * split; [discriminate | intros [[_ H]|[H _]]; discriminate].
      * split; auto.
    + cbn. split; [discriminate | intros [[H _]|[H _]]; discriminate].
Qed.

Lemma fst_emit o k : fst (main.emit o k) = o ++ fst k.
Proof. destruct k; reflexivity. Qed.

Lemma fst_deferred o k : fst (main.deferred o k) = fst k ++ o.
Proof. destruct k; reflexivity. Qed.

(** X26.  Once the configuration is parsed, the last thing run writes is the
    deferred line "main : Completed"; when the start-up succeeded the line
    before it is the deferred "main : Database Stopping" line, and when it
    did not, that line is not written at all. *)
Theorem run_deferred_lines :
  forall (env : main.Env),
    main.conf_Parse env = main.Parsed ->
    exists out,
      fst (main.run env) = out ++ [line_Completed]
      /\ (main.started env = true ->
          exists out', out = out' ++ [line_DatabaseStopping env])
      /\ (main.started env = false -> ~ In (line_DatabaseStopping env) out).
Proof.
  intros env Hp. unfold main.started, main.run. rewrite Hp.
  rewrite fst_emit, fst_deferred, app_assoc.
  eexists. split; [reflexivity|].
  unfold line_DatabaseStopping, main.return_.
  destruct (main.conf_String env) as [out [e|]]; cbv beta iota.
  { split; [discriminate|]. intros _ H. cbn in H. intuition discriminate. }
  rewrite fst_emit.
  destruct (main.ioutil_ReadFile env); cbv beta iota.
  { split; [discriminate|]. intros _ H. cbn in H. intuition discriminate. }
  destruct (main.ParseRSAPrivateKeyFromPEM env); cbv beta iota.
  { split; [discriminate|]. intros _ H. cbn in H. intuition discriminate. }
  destruct (main.NewAuthenticator env); cbv beta iota.
  { split; [discriminate|]. intros _ H. cbn in H. intuition discriminate. }
  rewrite fst_emit.
  destruct (main.database_Open env); cbv beta iota.
  { split; [discriminate|]. intros _ H. cbn in H. intuition discriminate. }
  split; [|discriminate]. intros _.
  rewrite fst_deferred, !app_assoc. eexists. reflexivity.
Qed.

Lemma run_deferred_lines_witness :
  exists out,
    fst (main.run (sample.env (main.Shutdown SIGTERM) None None))
    = out ++ [line_Completed].
Proof.
  destruct (run_deferred_lines (sample.env (main.Shutdown SIGTERM) None None) eq_refl)
    as [out [H _]].
  exists out. exact H.
Defined.

(** X27.  When the server itself stops with an error [e] while run waits in its
    select, run returns [e] wrapped with "server error"; it writes no line
    of the shutdown sequence, and what it writes and returns does not
    depend on what api.Shutdown and api.Close would return. *)
Theorem run_server_error :
  forall (env : main.Env) (e : err),
    main.started env = true ->
    main.received env = main.ServerError (Some e) ->
    snd (main.run env) = Some (ErrWrap e "server error" [])
    /\ forallb (fun o => negb (is_shutdown_line o)) (fst (main.run env)) = true
    /\ forall shutdown close, main.run (with_closing shutdown close env) = main.run env.
Proof.
  intros env e Hs Hr. unfold main.started in Hs. unfold main.run, with_closing.
  unfold main.shutdown_phase. cbn. rewrite Hr.
  destruct (main.conf_Parse env); try discriminate.
  destruct (main.conf_String env) as [out [x|]]; try discriminate.
  destruct (main.ioutil_ReadFile env); try discriminate.
  destruct (main.ParseRSAPrivateKeyFromPEM env); try discriminate.
  destruct (main.NewAuthenticator env); try discriminate.
  destruct (main.database_Open env); try discriminate.
  cbn. auto.
Qed.

Lemma run_server_error_witness :
  snd (main.run (sample.env (main.ServerError (Some (ErrNew "listen: address in use")))
                            None None))
  = Some (ErrWrap (ErrNew "listen: address in use") "server error" []).
Proof.
  apply (run_server_error
           (sample.env (main.ServerError (Some (ErrNew "listen: address in use")))
                       None None)
           (ErrNew "listen: address in use") eq_refl eq_refl).
Defined.

(** ** package tests *)

Lemma wait_from_failures (ping : nat -> error) :
  forall (remaining attempts : nat) (st : tests.Waited),
    (forall k, (attempts <= k < attempts + remaining)%nat -> ping k <> None) ->
    tests.wait_from ping remaining attempts st
    = tests.mkWaited
        (match remaining with
         | O => tests.pingError st
         | S _ => ping (attempts + remaining - 1)%nat
         end)
        (tests.pings st + remaining)
        (tests.slept st + tests.pause * Z.of_nat remaining).
Proof.
  induction remaining as [|k IH]; intros attempts st Hall.
  - cbn. destruct st; cbn. f_equal; [lia | lia].
  - cbn [tests.wait_from].
    destruct (ping attempts) as [e|] eqn:E.
    + rewrite IH by (intros j Hj; apply Hall; lia).
      cbn [tests.pingError tests.pings tests.slept].
      f_equal.
      * destruct k.
        -- replace (attempts + 1 - 1)%nat with attempts by lia. now rewrite E.
        -- f_equal. lia.
      * lia.
      * lia.
    + exfalso. apply (Hall attempts); [lia | exact E].
Qed.

Lemma wait_from_first_success (ping : nat -> error) :
  forall (j remaining attempts : nat) (st : tests.Waited),
    (j < remaining)%nat ->
    ping (attempts + j)%nat = None ->
    (forall k, (attempts <= k < attempts + j)%nat -> ping k <> None) ->
    tests.wait_from ping remaining attempts st
    = tests.mkWaited None (tests.pings st + j + 1)
                     (tests.slept st + tests.pause * Z.of_nat j).
Proof.
  induction j as [|j IH]; intros remaining attempts st Hlt Hok Hbefore.
  - destruct remaining as [|k]; [lia|]. cbn [tests.wait_from].
    rewrite Nat.add_0_r in Hok. rewrite Hok. f_equal; lia.
  - destruct remaining as [|k]; [lia|]. cbn [tests.wait_from].
    destruct (ping attempts) as [e|] eqn:E.
    + rewrite (IH k (S attempts)).
      * cbn [tests.pings tests.slept]. f_equal; lia.
      * lia.
      * replace (S attempts + j)%nat with (attempts + S j)%nat by lia. exact Hok.
      * intros i Hi. apply Hbefore. lia.
    + exfalso. apply (Hbefore attempts); [lia | exact E].
Qed.

(** X28.  The loop of NewUnit that waits for the database.  If the n-th ping is
    the first to succeed, n at most 20, the loop makes exactly n pings,
    ends with no error and has slept 2000 ms after each of the n - 1 failed
    ones; if none of the first 20 pings succeeds it makes exactly 20, keeps
    the error of the last and has slept 40 seconds.  The time slept after a
    failed ping does not grow with the attempts. *)
Theorem wait_for_database_outcomes :
  forall (ping : nat -> error),
    (forall n, (1 <= n <= 20)%nat -> ping n = None ->
       (forall k, (1 <= k < n)%nat -> ping k <> None) ->
       tests.wait_for_database ping
       = tests.mkWaited None n (2000 * (Z.of_nat n - 1)))
    /\ ((forall k, (1 <= k <= 20)%nat -> ping k <> None) ->
        tests.wait_for_database ping = tests.mkWaited (ping 20%nat) 20 40000).
Proof.
  intros ping. unfold tests.wait_for_database. split.
  - intros n Hn Hok Hbefore.
    rewrite (wait_from_first_success ping (n - 1) tests.maxAttempts 1).
    + cbn [tests.pings tests.slept]. unfold tests.pause, tests.maxAttempts.
      f_equal; lia.
    + unfold tests.maxAttempts. lia.
    + replace (1 + (n - 1))%nat with n by lia. exact Hok.
    + intros k Hk. apply Hbefore. lia.
  - intros Hall.
    rewrite wait_from_failures.
    + reflexivity.
    + intros k Hk. apply Hall. unfold tests.maxAttempts in Hk. lia.
Qed.

Lemma wait_for_database_outcomes_witness :
  tests.wait_for_database third_ping = tests.mkWaited None 3 4000.
Proof.
  apply (wait_for_database_outcomes third_ping); [lia | reflexivity |].
  intros k Hk. assert (k = 1 \/ k = 2)%nat as [-> | ->] by lia; discriminate.
Defined.
